(** * srunner/challenge/envs/sensor_interface.py

    A shallow embedding of the sensor interface of the scenario runner:
    the [SensorInterface] registry (three dictionaries keyed by the sensor
    tag), the [CallBack] parsers that turn raw sensor frames into arrays,
    and the polling loops of the pseudo sensors ([HDMapReader.run],
    [CANBusSensor.read_CAN_Bus]).

    Python objects are modelled by value; a dictionary is a [gmap] keyed by
    [string]; a method that may raise returns a [result] next to the state
    it leaves behind. *)

From Stdlib Require Import ZArith List Lia.
From Stdlib Require Import Strings.Byte.
From Stdlib Require Import Floats.SpecFloat.
From stdpp Require Import gmap strings list fin_maps.

Open Scope Z_scope.

(** ** Python values and exceptions *)

(** The exceptions the module can raise.  [ValueError] carries its message,
    [KeyError] the missing key. *)
Inductive PyExc : Type :=
| ValueError (msg : string)
| KeyError (key : string)
| ZeroDivisionError.

Inductive result (A : Type) : Type :=
| Ok (a : A)
| Raise (e : PyExc).
Arguments Ok {A} a.
Arguments Raise {A} e.

(** A Python reference that is either [None] or an object of type [A]. *)
Inductive pyobj (A : Type) : Type :=
| PyNone
| PyVal (a : A).
Arguments PyNone {A}.
Arguments PyVal {A} a.

(** [copy.deepcopy] on values: the copy is equal to the original. *)
Definition deepcopy {A} (a : A) : A := a.

(** ** class SensorInterface *)

Module SensorInterface.
Section Registry.
(** [Sensor] is the type of the sensor objects handed to
    [register_sensor], [Data] the type of the payloads. *)
Context {Sensor Data : Type}.

Record t : Type := Build {
  _sensors_objects : gmap string Sensor;
  _data_buffers : gmap string (pyobj Data);
  _timestamps : gmap string Z
}.

(** A method runs on the object and leaves it in a new state, with a
    returned value or a raised exception. *)
Definition M (A : Type) : Type := t -> result A * t.

Definition ret {A} (a : A) : M A := fun self => (Ok a, self).
Definition raise {A} (e : PyExc) : M A := fun self => (Raise e, self).
Definition bind {A B} (m : M A) (k : A -> M B) : M B :=
  fun self =>
    match m self with
    | (Ok a, self') => k a self'
    | (Raise e, self') => (Raise e, self')
    end.

Definition set_sensors_object (tag : string) (sensor : Sensor) : M unit :=
  fun self => (Ok tt, Build (<[tag := sensor]> (_sensors_objects self))
                            (_data_buffers self) (_timestamps self)).
Definition set_data_buffer (tag : string) (data : pyobj Data) : M unit :=
  fun self => (Ok tt, Build (_sensors_objects self)
                            (<[tag := data]> (_data_buffers self))
                            (_timestamps self)).
Definition set_timestamp (tag : string) (timestamp : Z) : M unit :=
  fun self => (Ok tt, Build (_sensors_objects self) (_data_buffers self)
                            (<[tag := timestamp]> (_timestamps self))).

(** [tag in self._sensors_objects] *)
Definition contains (tag : string) (self : t) : bool :=
  bool_decide (is_Some (_sensors_objects self !! tag)).

Definition __init__ : t := Build ∅ ∅ ∅.

Definition register_sensor (tag : string) (sensor : Sensor) : M unit :=
  fun self =>
    if contains tag self
    then raise (ValueError ("Duplicated sensor tag [" +:+ tag +:+ "]")) self
    else bind (set_sensors_object tag sensor) (fun _ =>
         bind (set_data_buffer tag PyNone) (fun _ =>
         set_timestamp tag (-1))) self.

Definition update_sensor (tag : string) (data : pyobj Data) (timestamp : Z)
  : M unit :=
  fun self =>
    if negb (contains tag self)
    then raise (ValueError ("The sensor with tag [" +:+ tag
                            +:+ "] has not been created!")) self
    else bind (set_data_buffer tag data) (fun _ =>
         set_timestamp tag timestamp) self.

(** [self._sensors_objects.keys()].  Python visits the keys in the order
    of insertion, [map_to_list] in an order of its own; the order matters
    only where a subscript raises [KeyError], and none does while the
    three dictionaries have the same keys. *)
Definition keys (self : t) : list string :=
  (map_to_list (_sensors_objects self)).*1.

(** The [for] loop of [all_sensors_ready]; a subscript on a missing key
    raises [KeyError]. *)
Fixpoint all_sensors_ready_loop (self : t) (ks : list string) : result bool :=
  match ks with
  | [] => Ok true
  | key :: rest =>
      match _data_buffers self !! key with
      | None => Raise (KeyError key)
      | Some PyNone => Ok false
      | Some (PyVal _) => all_sensors_ready_loop self rest
      end
  end.

Definition all_sensors_ready : M bool :=
  fun self => (all_sensors_ready_loop self (keys self), self).

(** The [for] loop of [get_data], threading [data_dict]. *)
Fixpoint get_data_loop (self : t) (ks : list string)
    (data_dict : gmap string (Z * pyobj Data))
  : result (gmap string (Z * pyobj Data)) :=
  match ks with
  | [] => Ok data_dict
  | key :: rest =>
      match _timestamps self !! key with
      | None => Raise (KeyError key)
      | Some ts =>
          match _data_buffers self !! key with
          | None => Raise (KeyError key)
          | Some d => get_data_loop self rest (<[key := (ts, deepcopy d)]> data_dict)
          end
      end
  end.

Definition get_data : M (gmap string (Z * pyobj Data)) :=
  fun self => (get_data_loop self (keys self) ∅, self).

(** *** Histories of calls *)

Inductive call : Type :=
| Register (tag : string) (sensor : Sensor)
| Update (tag : string) (data : pyobj Data) (timestamp : Z).

Definition do_call (c : call) : M unit :=
  match c with
  | Register tag sensor => register_sensor tag sensor
  | Update tag data timestamp => update_sensor tag data timestamp
  end.

(** The object after a history of calls, each run to completion; a call
    that raised is followed by the next call on the object as it was
    left. *)
Definition run_calls (cs : list call) (self : t) : t :=
  fold_left (fun s c => snd (do_call c s)) cs self.

(** The entry of a tag: what the three dictionaries hold for it. *)
Definition entry (tag : string) (self : t)
  : option Sensor * option (pyobj Data) * option Z :=
  (_sensors_objects self !! tag, _data_buffers self !! tag,
   _timestamps self !! tag).

(** The three dictionaries have the same keys. *)
Definition consistent (self : t) : Prop :=
  dom (_data_buffers self) = dom (_sensors_objects self) ∧
  dom (_timestamps self) = dom (_sensors_objects self).

End Registry.
Arguments t : clear implicits.
Arguments call : clear implicits.
End SensorInterface.

(** ** numpy *)

Module np.
(** An element of a [dtype('f4')] array read from a buffer: the four
    bytes of the float, in buffer order. *)
Definition f4 : Type := (byte * byte * byte * byte)%type.

Definition f4_bytes (x : f4) : list byte :=
  let '(b0, b1, b2, b3) := x in [b0; b1; b2; b3].

(** The buffer that holds the floats [xs]. *)
Definition tobytes (xs : list f4) : list byte := concat (map f4_bytes xs).

(** [np.frombuffer(raw, dtype=np.dtype("uint8"))]: one element a byte. *)
Definition frombuffer_uint8 (raw : list byte) : result (list byte) := Ok raw.

(** [np.frombuffer(raw, dtype=np.dtype('f4'))]: one element every four
    bytes; a buffer whose size is no multiple of four is refused. *)
Fixpoint frombuffer_f4 (raw : list byte) : result (list f4) :=
  match raw with
  | [] => Ok []
  | b0 :: b1 :: b2 :: b3 :: rest =>
      match frombuffer_f4 rest with
      | Ok xs => Ok ((b0, b1, b2, b3) :: xs)
      | Raise e => Raise e
      end
  | _ => Raise (ValueError "buffer size must be a multiple of element size")
  end.

(** [n] rows of [k] elements each, taken from [l] in order. *)
Fixpoint rows {A} (n k : nat) (l : list A) : list (list A) :=
  match n with
  | O => []
  | S n' => take k l :: rows n' k (drop k l)
  end.

(** [np.reshape(a, (d0, d1))] of a flat array: the number of elements
    must be [d0 * d1]. *)
Definition reshape2 {A} (a : list A) (d0 d1 : nat) : result (list (list A)) :=
  if (length a =? d0 * d1)%nat then Ok (rows d0 d1 a)
  else Raise (ValueError "cannot reshape array").

(** [np.reshape(a, (d0, d1, d2))] of a flat array. *)
Definition reshape3 {A} (a : list A) (d0 d1 d2 : nat)
  : result (list (list (list A))) :=
  if (length a =? d0 * d1 * d2)%nat
  then Ok (map (rows d1 d2) (rows d0 (d1 * d2) a))
  else Raise (ValueError "cannot reshape array").

(** [a[:, :, :3]] *)
Definition first3_channels {A} (a : list (list (list A))) : list (list (list A)) :=
  map (map (take 3)) a.

(** [a[:, :, ::-1]] *)
Definition reverse_channels {A} (a : list (list (list A))) : list (list (list A)) :=
  map (map (@rev A)) a.

(** The float types of an array built by [np.array(..., dtype=...)]. *)
Inductive dtype : Type := float32 | float64.

Definition precision (dt : dtype) : Z :=
  match dt with float32 => 24 | float64 => 53 end.
Definition emax (dt : dtype) : Z :=
  match dt with float32 => 128 | float64 => 1024 end.

(** Conversion of a float to the format of [dt], to nearest even. *)
Definition astype (dt : dtype) (x : spec_float) : spec_float :=
  match x with
  | S754_finite s m e => binary_round (precision dt) (emax dt) s m e
  | _ => x
  end.

(** A one-dimensional float array. *)
Record ndarray : Type := { ndarray_dtype : dtype; tolist : list spec_float }.

(** [np.array(xs, dtype=dt)] of a list of Python floats. *)
Definition array (xs : list spec_float) (dt : dtype) : ndarray :=
  {| ndarray_dtype := dt; tolist := map (astype dt) xs |}.
End np.

(** ** The frames the sensors deliver *)

Module Image.
(** [carla.Image] *)
Record t : Type := { raw_data : list byte; width : nat; height : nat; frame_number : Z }.
End Image.

Module LidarMeasurement.
(** [carla.LidarMeasurement] *)
Record t : Type := { raw_data : list byte; frame_number : Z }.
End LidarMeasurement.

Module GnssEvent.
(** [carla.GnssEvent]; the coordinates are Python floats. *)
Record t : Type := {
  latitude : spec_float; longitude : spec_float; altitude : spec_float;
  frame_number : Z
}.
End GnssEvent.

Module HDMapMeasurement.
Record t (Dict : Type) : Type := Build { data : Dict; frame_number : Z }.
Arguments Build {Dict} data frame_number.
Arguments data {Dict} _.
Arguments frame_number {Dict} _.
End HDMapMeasurement.

Module CANBusMeasurement.
Record t (Dict : Type) : Type := Build { data : Dict; frame_number : Z }.
Arguments Build {Dict} data frame_number.
Arguments data {Dict} _.
Arguments frame_number {Dict} _.
End CANBusMeasurement.

(** ** class CallBack *)

Module CallBack.
Section CallBack.
(** [Dict] is the type of the dictionaries the pseudo sensors produce; the
    [data] of a measurement is such a dictionary or [None]. *)
Context {Sensor Dict : Type}.

(** What the parsers store in the data provider. *)
Inductive Payload : Type :=
| ImageArray (array : list (list (list byte)))
| PointsArray (points : list (list np.f4))
| GnssArray (array : np.ndarray)
| DictData (data : Dict).

(** What [__call__] may be handed. *)
Inductive SensorData : Type :=
| IsImage (image : Image.t)
| IsLidarMeasurement (lidar_data : LidarMeasurement.t)
| IsGnssEvent (gnss_data : GnssEvent.t)
| IsCANBusMeasurement (speed : CANBusMeasurement.t (pyobj Dict))
| IsHDMapMeasurement (hd_package : HDMapMeasurement.t (pyobj Dict))
| IsOther.

(** The methods act on the data provider the callback was built with. *)
Abbreviation M := (@SensorInterface.M Sensor Payload).

Definition __init__ (tag : string) (sensor : Sensor) : M unit :=
  SensorInterface.register_sensor tag sensor.

(** The array [_parse_image_cb] builds before it updates the provider. *)
Definition image_array (image : Image.t) : result (list (list (list byte))) :=
  match np.frombuffer_uint8 (Image.raw_data image) with
  | Raise e => Raise e
  | Ok array =>
      let array := deepcopy array in
      match np.reshape3 array (Image.height image) (Image.width image) 4 with
      | Raise e => Raise e
      | Ok array =>
          let array := np.first3_channels array in
          let array := np.reverse_channels array in
          Ok array
      end
  end.

Definition _parse_image_cb (image : Image.t) (tag : string) : M unit :=
  match image_array image with
  | Raise e => SensorInterface.raise e
  | Ok array =>
      SensorInterface.update_sensor tag (PyVal (ImageArray array))
        (Image.frame_number image)
  end.

(** The array [_parse_lidar_cb] builds before it updates the provider. *)
Definition lidar_points (lidar_data : LidarMeasurement.t)
  : result (list (list np.f4)) :=
  match np.frombuffer_f4 (LidarMeasurement.raw_data lidar_data) with
  | Raise e => Raise e
  | Ok points =>
      let points := deepcopy points in
      np.reshape2 points (length points / 3)%nat 3
  end.

Definition _parse_lidar_cb (lidar_data : LidarMeasurement.t) (tag : string)
  : M unit :=
  match lidar_points lidar_data with
  | Raise e => SensorInterface.raise e
  | Ok points =>
      SensorInterface.update_sensor tag (PyVal (PointsArray points))
        (LidarMeasurement.frame_number lidar_data)
  end.

(** The array [_parse_gnss_cb] builds before it updates the provider. *)
Definition gnss_array (gnss_data : GnssEvent.t) : np.ndarray :=
  np.array [GnssEvent.latitude gnss_data;
            GnssEvent.longitude gnss_data;
            GnssEvent.altitude gnss_data] np.float32.

Definition _parse_gnss_cb (gnss_data : GnssEvent.t) (tag : string) : M unit :=
  let array := gnss_array gnss_data in
  SensorInterface.update_sensor tag (PyVal (GnssArray array))
    (GnssEvent.frame_number gnss_data).

(** The [data] of a measurement as the object the provider is handed: the
    two parsers below pass it on as it is, [None] as [None]. *)
Definition passed_on (data : pyobj Dict) : pyobj Payload :=
  match data with
  | PyNone => PyNone
  | PyVal d => PyVal (DictData d)
  end.

Definition _parse_speedometer (speed : CANBusMeasurement.t (pyobj Dict))
    (tag : string) : M unit :=
  SensorInterface.update_sensor tag (passed_on (CANBusMeasurement.data speed))
    (CANBusMeasurement.frame_number speed).

Definition _parse_hdmap (hd_package : HDMapMeasurement.t (pyobj Dict))
    (tag : string) : M unit :=
  SensorInterface.update_sensor tag (passed_on (HDMapMeasurement.data hd_package))
    (HDMapMeasurement.frame_number hd_package).

(** [__call__]: the chain of [isinstance] tests; the last branch only
    logs an error. *)
Definition __call__ (_tag : string) (data : SensorData) : M unit :=
  match data with
  | IsImage image => _parse_image_cb image _tag
  | IsLidarMeasurement lidar_data => _parse_lidar_cb lidar_data _tag
  | IsGnssEvent gnss_data => _parse_gnss_cb gnss_data _tag
  | IsCANBusMeasurement speed => _parse_speedometer speed _tag
  | IsHDMapMeasurement hd_package => _parse_hdmap hd_package _tag
  | IsOther => SensorInterface.ret tt
  end.
End CallBack.
Arguments Payload : clear implicits.
Arguments SensorData : clear implicits.
End CallBack.

(** ** The pseudo sensors and their polling threads *)

(** Python floats are binary64. *)
Definition float_sub (x y : spec_float) : spec_float := SFsub 53 1024 x y.
Definition float_gt (x y : spec_float) : bool := SFltb y x.

(** The float 1.0, that is 2^52 * 2^-52. *)
Definition float_one : spec_float := S754_finite false 4503599627370496 (-52).

(** [1 / y] for a float [y]; division by zero raises. *)
Definition one_over (y : spec_float) : result spec_float :=
  match y with
  | S754_zero _ => Raise ZeroDivisionError
  | _ => Ok (SFdiv 53 1024 float_one y)
  end.

Module Polling.
Section Loop.
(** [Dict] is what [__call__] returns, [Measurement] the class the loop
    wraps it in, [make] the constructor of that class. *)
Context {Dict Measurement : Type}.
Variable make : Dict -> Z -> Measurement.

(** What one pass of the [while] loop reads from outside the thread: the
    flag and the listener as other threads have set them, the clock, and
    the outcome of the two calls it makes. *)
Record Pass : Type := {
  see_run_ps : bool;              (* self._run_ps *)
  see_callback : bool;            (* self._callback is not None *)
  see_capture : spec_float;       (* capture = time.time() *)
  see_call : result Dict;         (* self.__call__() *)
  see_listener : result unit;     (* self._callback(...) *)
  see_latest : spec_float         (* latest_read = time.time() *)
}.

Inductive Exit : Type :=
| Looping                (* the passes given are used up, the loop goes on *)
| Returned               (* the loop saw [_run_ps] false *)
| Died (e : PyExc).      (* an exception ended the thread *)

(** What a run leaves: the measurements handed to the listener, in
    order, the counter, and how the loop stands. *)
Record Run : Type := {
  emitted : list Measurement;
  frame_number_after : Z;
  exit : Exit
}.

Definition emit (m : Measurement) (r : Run) : Run :=
  {| emitted := m :: emitted r;
     frame_number_after := frame_number_after r;
     exit := exit r |}.

Fixpoint loop (_reading_frequency : spec_float) (passes : list Pass)
    (_frame_number : Z) (latest_read : spec_float) : Run :=
  match passes with
  | [] => {| emitted := []; frame_number_after := _frame_number; exit := Looping |}
  | p :: rest =>
      if negb (see_run_ps p)
      then {| emitted := []; frame_number_after := _frame_number; exit := Returned |}
      else if negb (see_callback p)
      then loop _reading_frequency rest _frame_number latest_read
      else
        let capture := see_capture p in
        match one_over _reading_frequency with
        | Raise e =>
            {| emitted := []; frame_number_after := _frame_number; exit := Died e |}
        | Ok period =>
            if float_gt (float_sub capture latest_read) period
            then
              match see_call p with
              | Raise e =>
                  {| emitted := []; frame_number_after := _frame_number;
                     exit := Died e |}
              | Ok data =>
                  let m := make data _frame_number in
                  match see_listener p with
                  | Raise e =>
                      {| emitted := [m]; frame_number_after := _frame_number;
                         exit := Died e |}
                  | Ok _ =>
                      emit m (loop _reading_frequency rest (_frame_number + 1)
                                (see_latest p))
                  end
              end
            else (* time.sleep(0.001) *)
              loop _reading_frequency rest _frame_number latest_read
        end
  end.

(** The local variable [latest_read] of the loop after the passes: the
    clock as read after the last emission, or as the loop started with. *)
Fixpoint latest_read_after (_reading_frequency : spec_float) (passes : list Pass)
    (latest_read : spec_float) : spec_float :=
  match passes with
  | [] => latest_read
  | p :: rest =>
      if negb (see_run_ps p) then latest_read
      else if negb (see_callback p)
      then latest_read_after _reading_frequency rest latest_read
      else
        let capture := see_capture p in
        match one_over _reading_frequency with
        | Raise e => latest_read
        | Ok period =>
            if float_gt (float_sub capture latest_read) period
            then
              match see_call p with
              | Raise e => latest_read
              | Ok data =>
                  match see_listener p with
                  | Raise e => latest_read
                  | Ok _ => latest_read_after _reading_frequency rest (see_latest p)
                  end
              end
            else latest_read_after _reading_frequency rest latest_read
        end
  end.
End Loop.
Arguments Pass : clear implicits.
Arguments Run : clear implicits.
End Polling.

(** ** The values the pseudo sensors read and produce *)

(** The Python values of the dictionaries that [__call__] builds; a
    dictionary is the list of its items in the order they are written. *)
Unset Elimination Schemes.
Inductive pyvalue : Type :=
| PyFloat (x : spec_float)
| PyBool (b : bool)
| PyStr (s : string)
| PyList (items : list pyvalue)
| PyDict (items : list (string * pyvalue)).
Set Elimination Schemes.

(** [d[key]] *)
Fixpoint dict_get (key : string) (items : list (string * pyvalue)) : option pyvalue :=
  match items with
  | [] => None
  | (k, v) :: rest => if String.eqb k key then Some v else dict_get key rest
  end.

Module posixpath.
(** The rest of [p] after its last slash, [from] being the rest after the
    last slash seen so far. *)
Fixpoint basename_from (from p : string) : string :=
  match p with
  | EmptyString => from
  | String c rest =>
      if String.eqb (String c EmptyString) "/" then basename_from rest rest
      else basename_from from rest
  end.

(** [os.path.basename(p)]: [p[p.rfind('/') + 1:]] *)
Definition basename (p : string) : string := basename_from p p.
End posixpath.

Module os.
(** [os.getenv(key, default)], given what the environment holds for
    [key]. *)
Definition getenv (value : option string) (default : string) : string :=
  match value with
  | Some v => v
  | None => default
  end.
End os.

Module carla.
Record Vector2D : Type := { x2 : spec_float; y2 : spec_float }.
Record Vector3D : Type := { x : spec_float; y : spec_float; z : spec_float }.
Record Rotation : Type := { pitch : spec_float; yaw : spec_float; roll : spec_float }.
Record Transform : Type := { location : Vector3D; rotation : Rotation }.

Record WheelPhysicsControl : Type := {
  tire_friction : spec_float;
  damping_rate : spec_float;
  steer_angle : spec_float;
  disable_steering : bool
}.

Record VehiclePhysicsControl : Type := {
  torque_curve : list Vector2D;
  max_rpm : spec_float;
  moi : spec_float;
  damping_rate_full_throttle : spec_float;
  damping_rate_zero_throttle_clutch_disengaged : spec_float;
  use_gear_autobox : bool;
  clutch_strength : spec_float;
  mass : spec_float;
  drag_coefficient : spec_float;
  center_of_mass : Vector3D;
  steering_curve : list Vector2D;
  wheels : list WheelPhysicsControl
}.

(** What the pseudo sensors ask of the vehicle. *)
Record Vehicle : Type := {
  map_name : string;                            (* get_world().get_map().name *)
  get_transform : Transform;
  get_physics_control : VehiclePhysicsControl
}.
End carla.

Module HDMapReader.
Section HDMapReader.
Context {Dict : Type}.

Record t : Type := { _reading_frequency : spec_float; _frame_number : Z }.

(** [__init__]: the counter starts at 0. *)
Definition __init__ (reading_frequency : spec_float) : t :=
  {| _reading_frequency := reading_frequency; _frame_number := 0 |}.

(** [run]: [now] is the clock when the thread starts. *)
Definition run (self : t) (now : spec_float) (passes : list (Polling.Pass Dict))
  : Polling.Run (HDMapMeasurement.t Dict) :=
  Polling.loop HDMapMeasurement.Build (_reading_frequency self) passes
    (_frame_number self) now.

(** [self._CARLA_ROOT], as [__init__] reads it from the environment. *)
Definition _CARLA_ROOT (CARLA_ROOT : option string) : string :=
  os.getenv CARLA_ROOT "./".

(** [__call__] *)
Definition __call__ (_CARLA_ROOT : string) (_vehicle : carla.Vehicle) : pyvalue :=
  let map_name := posixpath.basename (carla.map_name _vehicle) in
  let transform := carla.get_transform _vehicle in
  PyDict
    [("map_file", PyStr (_CARLA_ROOT +:+ "/HDMaps/" +:+ map_name +:+ ".ply"));
     ("transform",
      PyDict [("x", PyFloat (carla.x (carla.location transform)));
              ("y", PyFloat (carla.y (carla.location transform)));
              ("z", PyFloat (carla.z (carla.location transform)));
              ("yaw", PyFloat (carla.yaw (carla.rotation transform)));
              ("pitch", PyFloat (carla.pitch (carla.rotation transform)));
              ("roll", PyFloat (carla.roll (carla.rotation transform)))])].
End HDMapReader.
End HDMapReader.

Module CANBusSensor.
Section CANBusSensor.
Context {Dict : Type}.

Record t : Type := { _reading_frequency : spec_float; _frame_number : Z }.

(** [__init__]: the counter starts at 0. *)
Definition __init__ (reading_frequency : spec_float) : t :=
  {| _reading_frequency := reading_frequency; _frame_number := 0 |}.

(** [read_CAN_Bus]: [now] is the clock when the thread starts. *)
Definition read_CAN_Bus (self : t) (now : spec_float)
    (passes : list (Polling.Pass Dict))
  : Polling.Run (CANBusMeasurement.t Dict) :=
  Polling.loop CANBusMeasurement.Build (_reading_frequency self) passes
    (_frame_number self) now.

(** The three [for] loops of [__call__], each appending to its list. *)
Fixpoint wheels_loop (wheels : list carla.WheelPhysicsControl)
    (wheels_list_dict : list pyvalue) : list pyvalue :=
  match wheels with
  | [] => wheels_list_dict
  | wheel :: rest =>
      wheels_loop rest
        (wheels_list_dict ++
           [PyDict [("tire_friction", PyFloat (carla.tire_friction wheel));
                    ("damping_rate", PyFloat (carla.damping_rate wheel));
                    ("steer_angle", PyFloat (carla.steer_angle wheel));
                    ("disable_steering", PyBool (carla.disable_steering wheel))]])
  end.

Fixpoint curve_loop (points : list carla.Vector2D) (curve : list pyvalue)
  : list pyvalue :=
  match points with
  | [] => curve
  | point :: rest =>
      curve_loop rest
        (curve ++ [PyDict [("x", PyFloat (carla.x2 point));
                           ("y", PyFloat (carla.y2 point))]])
  end.

(** [__call__]; [speed] is what [self._get_forward_speed()] returns. *)
Definition __call__ (_vehicle : carla.Vehicle) (speed : spec_float) : pyvalue :=
  let vehicle_physics := carla.get_physics_control _vehicle in
  let wheels_list_dict := wheels_loop (carla.wheels vehicle_physics) [] in
  let torque_curve := curve_loop (carla.torque_curve vehicle_physics) [] in
  let steering_curve := curve_loop (carla.steering_curve vehicle_physics) [] in
  PyDict
    [("speed", PyFloat speed);
     ("torque_curve", PyList torque_curve);
     ("max_rpm", PyFloat (carla.max_rpm vehicle_physics));
     ("moi", PyFloat (carla.moi vehicle_physics));
     ("damping_rate_full_throttle",
      PyFloat (carla.damping_rate_full_throttle vehicle_physics));
     ("damping_rate_zero_throttle_clutch_disengaged",
      PyFloat (carla.damping_rate_zero_throttle_clutch_disengaged vehicle_physics));
     ("use_gear_autobox", PyBool (carla.use_gear_autobox vehicle_physics));
     ("clutch_strength", PyFloat (carla.clutch_strength vehicle_physics));
     ("mass", PyFloat (carla.mass vehicle_physics));
     ("drag_coefficient", PyFloat (carla.drag_coefficient vehicle_physics));
     ("center_of_mass",
      PyDict [("x", PyFloat (carla.x (carla.center_of_mass vehicle_physics)));
              ("y", PyFloat (carla.x (carla.center_of_mass vehicle_physics)));
              ("z", PyFloat (carla.x (carla.center_of_mass vehicle_physics)))]);
     ("steering_curve", PyList steering_curve);
     ("wheels", PyList wheels_list_dict)].
End CANBusSensor.
End CANBusSensor.

(** * Properties *)

(** ** The registry *)

Section RegistryFacts.
Context {Sensor Data : Type}.
Implicit Types (self : SensorInterface.t Sensor Data) (tag key : string).
Import SensorInterface.

Lemma contains_true self tag :
  contains tag self = true ↔ is_Some (_sensors_objects self !! tag).
Proof. unfold contains. apply bool_decide_eq_true. Qed.

Lemma contains_false self tag :
  contains tag self = false ↔ _sensors_objects self !! tag = None.
Proof.
  unfold contains. rewrite bool_decide_eq_false.
  rewrite <- eq_None_not_Some. reflexivity.
Qed.

(** What a call does, by whether the tag is a key of
    [_sensors_objects]. *)
Lemma register_sensor_fresh self tag sensor :
  _sensors_objects self !! tag = None →
  register_sensor tag sensor self =
    (Ok tt, Build (<[tag := sensor]> (_sensors_objects self))
                  (<[tag := PyNone]> (_data_buffers self))
                  (<[tag := -1]> (_timestamps self))).
Proof.
  intros Hnew. apply contains_false in Hnew.
  unfold register_sensor. rewrite Hnew. reflexivity.
Qed.

Lemma register_sensor_present self tag sensor :
  is_Some (_sensors_objects self !! tag) →
  register_sensor tag sensor self =
    (Raise (ValueError ("Duplicated sensor tag [" +:+ tag +:+ "]")), self).
Proof.
  intros Hin. apply contains_true in Hin.
  unfold register_sensor. rewrite Hin. reflexivity.
Qed.

Lemma update_sensor_present self tag data timestamp :
  is_Some (_sensors_objects self !! tag) →
  update_sensor tag data timestamp self =
    (Ok tt, Build (_sensors_objects self)
                  (<[tag := data]> (_data_buffers self))
                  (<[tag := timestamp]> (_timestamps self))).
Proof.
  intros Hin. apply contains_true in Hin.
  unfold update_sensor. rewrite Hin. reflexivity.
Qed.

Lemma update_sensor_absent self tag data timestamp :
  _sensors_objects self !! tag = None →
  update_sensor tag data timestamp self =
    (Raise (ValueError ("The sensor with tag [" +:+ tag
                        +:+ "] has not been created!")), self).
Proof.
  intros Hnew. apply contains_false in Hnew.
  unfold update_sensor. rewrite Hnew. reflexivity.
Qed.

(** A call that raises leaves the object as it was. *)
Lemma do_call_raise self c e :
  fst (do_call c self) = Raise e → snd (do_call c self) = self.
Proof.
  destruct c as [tag sensor | tag data timestamp]; simpl.
  - destruct (_sensors_objects self !! tag) as [x|] eqn:E.
    + rewrite register_sensor_present by eauto. reflexivity.
    + rewrite register_sensor_fresh by assumption. discriminate.
  - destruct (_sensors_objects self !! tag) as [x|] eqn:E.
    + rewrite update_sensor_present by eauto. discriminate.
    + rewrite update_sensor_absent by assumption. reflexivity.
Qed.

Lemma run_calls_snoc cs c self :
  run_calls (cs ++ [c]) self = snd (do_call c (run_calls cs self)).
Proof. unfold run_calls. rewrite fold_left_app. reflexivity. Qed.

Lemma run_calls_app cs1 cs2 self :
  run_calls (cs1 ++ cs2) self = run_calls cs2 (run_calls cs1 self).
Proof. unfold run_calls. apply fold_left_app. Qed.

(** The keys of [_sensors_objects] after a call. *)
Lemma do_call_registered self c key :
  is_Some (_sensors_objects (snd (do_call c self)) !! key) ↔
  is_Some (_sensors_objects self !! key) ∨ ∃ sensor, c = Register key sensor.
Proof.
  destruct c as [tag sensor | tag data timestamp]; simpl.
  - destruct (_sensors_objects self !! tag) as [x|] eqn:E.
    + rewrite register_sensor_present by eauto. simpl. split; [tauto|].
      intros [H | [s Hs]]; [assumption|]. injection Hs as -> _. eauto.
    + rewrite register_sensor_fresh by assumption. simpl.
      rewrite lookup_insert_is_Some. split.
      * intros [-> | [_ H]]; [right; eauto | left; assumption].
      * intros [H | [s Hs]].
        -- destruct (decide (tag = key)) as [->|]; [left; reflexivity | right; split; assumption].
        -- injection Hs as -> _. left; reflexivity.
  - destruct (_sensors_objects self !! tag) as [x|] eqn:E.
    + rewrite update_sensor_present by eauto. simpl. split; [tauto|].
      intros [H | [s Hs]]; [assumption | discriminate].
    + rewrite update_sensor_absent by assumption. simpl. split; [tauto|].
      intros [H | [s Hs]]; [assumption | discriminate].
Qed.

(** A registration is never undone. *)
Lemma run_calls_registered_mono cs self key :
  is_Some (_sensors_objects self !! key) →
  is_Some (_sensors_objects (run_calls cs self) !! key).
Proof.
  induction cs as [|c cs IH] using rev_ind; [trivial|].
  intros H. rewrite run_calls_snoc. apply do_call_registered. left. auto.
Qed.

(** Without a [Register] call for it, a tag stays unknown. *)
Lemma run_calls_never_registered cs self key :
  _sensors_objects self !! key = None →
  (∀ sensor, Register key sensor ∉ cs) →
  _sensors_objects (run_calls cs self) !! key = None.
Proof.
  induction cs as [|c cs IH] using rev_ind; [trivial|].
  intros Hnone Hnot. rewrite run_calls_snoc.
  apply eq_None_not_Some. rewrite do_call_registered.
  intros [H | [s ->]].
  - rewrite IH in H; [by destruct H | assumption |].
    intros s Hs. apply (Hnot s). apply elem_of_app. left; assumption.
  - apply (Hnot s). apply elem_of_app. right. apply list_elem_of_singleton. reflexivity.
Qed.

(** The three dictionaries keep the same keys. *)
Lemma consistent_init : consistent (@__init__ Sensor Data).
Proof. split; reflexivity. Qed.

Lemma consistent_do_call self c :
  consistent self → consistent (snd (do_call c self)).
Proof.
  intros [Hb Ht].
  destruct c as [tag sensor | tag data timestamp]; simpl.
  - destruct (_sensors_objects self !! tag) as [x|] eqn:E.
    + rewrite register_sensor_present by eauto. split; assumption.
    + rewrite register_sensor_fresh by assumption.
      split; simpl; rewrite !dom_insert_L; congruence.
  - destruct (_sensors_objects self !! tag) as [x|] eqn:E.
    + rewrite update_sensor_present by eauto.
      assert (Hin : {[tag]} ⊆ dom (_sensors_objects self)).
      { apply singleton_subseteq_l, elem_of_dom. eauto. }
      split; simpl; rewrite dom_insert_L; [rewrite Hb | rewrite Ht];
        apply subseteq_union_1_L; exact Hin.
    + rewrite update_sensor_absent by assumption. split; assumption.
Qed.

Lemma consistent_run_calls cs self :
  consistent self → consistent (run_calls cs self).
Proof.
  induction cs as [|c cs IH] using rev_ind; [trivial|].
  intros H. rewrite run_calls_snoc. apply consistent_do_call. auto.
Qed.

Lemma elem_of_keys self key :
  key ∈ keys self ↔ is_Some (_sensors_objects self !! key).
Proof.
  unfold keys. rewrite list_elem_of_fmap. split.
  - intros [[k v] [-> H]]. apply elem_of_map_to_list in H. simpl. eauto.
  - intros [v H]. exists (key, v). split; [reflexivity|].
    apply elem_of_map_to_list. assumption.
Qed.

Lemma consistent_lookup self key :
  consistent self → is_Some (_sensors_objects self !! key) →
  is_Some (_data_buffers self !! key) ∧ is_Some (_timestamps self !! key).
Proof.
  intros [Hb Ht] H. apply elem_of_dom in H.
  split; apply elem_of_dom; [rewrite Hb | rewrite Ht]; assumption.
Qed.
End RegistryFacts.

Section RegistryReads.
Context {Sensor Data : Type}.
Implicit Types (self : SensorInterface.t Sensor Data) (tag key : string).
Import SensorInterface.

(** The loop of [all_sensors_ready] over keys that all have a buffer. *)
Lemma all_sensors_ready_loop_spec self ks :
  (∀ key, key ∈ ks → is_Some (_data_buffers self !! key)) →
  ∃ b, all_sensors_ready_loop self ks = Ok b ∧
       (b = true ↔ ∀ key, key ∈ ks → ∃ a, _data_buffers self !! key = Some (PyVal a)).
Proof.
  induction ks as [|k ks IH]; intros Hall.
  - exists true. split; [reflexivity|]. split; [|reflexivity].
    intros _ key Hk. inversion Hk.
  - simpl. destruct (Hall k) as [[|a] Hk]; [left | | ]; rewrite Hk.
    + exists false. split; [reflexivity|]. split; [discriminate|].
      intros H. destruct (H k) as [a Ha]; [left|]. congruence.
    + destruct IH as [b [Hb Hiff]].
      { intros key Hin. apply Hall. right. assumption. }
      exists b. split; [assumption|]. rewrite Hiff. split.
      * intros H key Hin. apply elem_of_cons in Hin as [->|Hin]; eauto.
      * intros H key Hin. apply H. right. assumption.
Qed.

(** On a consistent object [all_sensors_ready] returns, and returns
    [True] exactly when no registered tag has [None] as its buffer. *)
Lemma all_sensors_ready_spec self :
  consistent self →
  ∃ b, all_sensors_ready self = (Ok b, self) ∧
       (b = true ↔ ∀ key, is_Some (_sensors_objects self !! key) →
                          ∃ a, _data_buffers self !! key = Some (PyVal a)).
Proof.
  intros Hc. destruct (all_sensors_ready_loop_spec self (keys self)) as [b [Hb Hiff]].
  { intros key Hin. apply elem_of_keys in Hin.
    apply (consistent_lookup self key Hc Hin). }
  exists b. split; [unfold all_sensors_ready; rewrite Hb; reflexivity|].
  rewrite Hiff. split; intros H key Hin; apply H; apply elem_of_keys; assumption.
Qed.

(** The loop of [get_data] over keys that all have a timestamp and a
    buffer. *)
Lemma get_data_loop_spec self ks data_dict :
  (∀ key, key ∈ ks → is_Some (_timestamps self !! key) ∧
                      is_Some (_data_buffers self !! key)) →
  ∃ m, get_data_loop self ks data_dict = Ok m ∧
       ∀ key, m !! key =
              if decide (key ∈ ks)
              then match _timestamps self !! key, _data_buffers self !! key with
                   | Some ts, Some d => Some (ts, d)
                   | _, _ => None
                   end
              else data_dict !! key.
Proof.
  revert data_dict. induction ks as [|k ks IH]; intros data_dict Hall.
  - exists data_dict. split; [reflexivity|]. intros key.
    destruct (decide (key ∈ [])) as [H|]; [inversion H | reflexivity].
  - simpl. destruct (Hall k) as [[ts Hts] [d Hd]]; [left|]. rewrite Hts, Hd.
    destruct (IH (<[k := (ts, deepcopy d)]> data_dict)) as [m [Hm Hlook]].
    { intros key Hin. apply Hall. right. assumption. }
    exists m. split; [assumption|]. intros key. rewrite Hlook.
    destruct (decide (key ∈ ks)) as [Hin|Hnin].
    + rewrite decide_True by (right; assumption). reflexivity.
    + destruct (decide (key = k)) as [->|Hne].
      * rewrite decide_True by left. rewrite lookup_insert_eq, Hts, Hd. reflexivity.
      * rewrite decide_False.
        -- rewrite lookup_insert_ne by congruence. reflexivity.
        -- intros H. apply elem_of_cons in H as [?|?]; contradiction.
Qed.

(** On a consistent object [get_data] returns a dictionary that holds,
    for each registered tag and no other, the timestamp and the buffer
    of the tag. *)
Lemma get_data_spec self :
  consistent self →
  ∃ m, get_data self = (Ok m, self) ∧
       (∀ key, is_Some (_sensors_objects self !! key) →
               ∃ ts d, _timestamps self !! key = Some ts ∧
                       _data_buffers self !! key = Some d ∧
                       m !! key = Some (ts, d)) ∧
       (∀ key, _sensors_objects self !! key = None → m !! key = None).
Proof.
  intros Hc. destruct (get_data_loop_spec self (keys self) ∅) as [m [Hm Hlook]].
  { intros key Hin. apply elem_of_keys in Hin.
    destruct (consistent_lookup self key Hc Hin). split; assumption. }
  exists m. split; [unfold get_data; rewrite Hm; reflexivity|]. split.
  - intros key Hin.
    destruct (consistent_lookup self key Hc Hin) as [[d Hd] [ts Hts]].
    exists ts, d. split; [assumption|]. split; [assumption|].
    rewrite Hlook, decide_True by (apply elem_of_keys; assumption).
    rewrite Hts, Hd. reflexivity.
  - intros key Hnone. rewrite Hlook, decide_False; [apply lookup_empty|].
    intros Hin. apply elem_of_keys in Hin. rewrite Hnone in Hin. by destruct Hin.
Qed.
End RegistryReads.

Section RegistryHistories.
Context {Sensor Data : Type}.
Implicit Types (self : SensorInterface.t Sensor Data) (tag key : string).
Implicit Types (c : SensorInterface.call Sensor Data).
Import SensorInterface.

Lemma snoc_eq_middle {A} (cs pre post : list A) (c x : A) :
  cs ++ [c] = pre ++ x :: post →
  (post = [] ∧ cs = pre ∧ c = x) ∨
  (∃ post', post = post' ++ [c] ∧ cs = pre ++ x :: post').
Proof.
  destruct post as [|y post _] using rev_ind; intros E.
  - left. apply app_inj_tail in E as [-> ->]. auto.
  - right. change (pre ++ x :: post ++ [y]) with (pre ++ (x :: post) ++ [y]) in E.
    rewrite app_assoc in E. apply app_inj_tail in E as [-> ->]. eauto.
Qed.

(** A call about another tag leaves the entry of [key] alone. *)
Lemma do_call_frame self c key :
  (∀ sensor, c ≠ Register key sensor) →
  (∀ data timestamp, c ≠ Update key data timestamp) →
  entry key (snd (do_call c self)) = entry key self.
Proof.
  intros Hr Hu. destruct c as [tag sensor | tag data timestamp]; simpl.
  - assert (tag ≠ key) by (intros ->; eapply Hr; reflexivity).
    destruct (_sensors_objects self !! tag) as [x|] eqn:E.
    + rewrite register_sensor_present by eauto. reflexivity.
    + rewrite register_sensor_fresh by assumption. unfold entry; simpl.
      rewrite !lookup_insert_ne by assumption. reflexivity.
  - assert (tag ≠ key) by (intros ->; eapply Hu; reflexivity).
    destruct (_sensors_objects self !! tag) as [x|] eqn:E.
    + rewrite update_sensor_present by eauto. unfold entry; simpl.
      rewrite !lookup_insert_ne by assumption. reflexivity.
    + rewrite update_sensor_absent by assumption. reflexivity.
Qed.

(** The entry of a registered tag after a history of calls on a new
    object: the entry of its registration if no update of it went
    through, and else what its last update passed. *)
Lemma entry_history (cs : list (call Sensor Data)) tag :
  is_Some (_sensors_objects (run_calls cs __init__) !! tag) →
  (_data_buffers (run_calls cs __init__) !! tag = Some PyNone ∧
   _timestamps (run_calls cs __init__) !! tag = Some (-1) ∧
   ∀ pre data timestamp post,
     cs = pre ++ Update tag data timestamp :: post →
     _sensors_objects (run_calls pre __init__) !! tag = None)
  ∨
  (∃ pre data timestamp post,
     cs = pre ++ Update tag data timestamp :: post ∧
     is_Some (_sensors_objects (run_calls pre __init__) !! tag) ∧
     (∀ data' timestamp', Update tag data' timestamp' ∉ post) ∧
     _data_buffers (run_calls cs __init__) !! tag = Some data ∧
     _timestamps (run_calls cs __init__) !! tag = Some timestamp).
Proof.
  induction cs as [|c cs IH] using rev_ind.
  { simpl. rewrite lookup_empty. intros [x Hx]. discriminate. }
  rewrite run_calls_snoc. set (s := run_calls cs __init__) in *. intros Hreg.
  (* the calls that leave the entry of [tag] as it was *)
  assert (Hlift :
    is_Some (_sensors_objects s !! tag) →
    (∀ data timestamp, c ≠ Update tag data timestamp) →
    entry tag (snd (do_call c s)) = entry tag s →
    (_data_buffers (snd (do_call c s)) !! tag = Some PyNone ∧
     _timestamps (snd (do_call c s)) !! tag = Some (-1) ∧
     ∀ pre data timestamp post,
       cs ++ [c] = pre ++ Update tag data timestamp :: post →
       _sensors_objects (run_calls pre __init__) !! tag = None)
    ∨
    (∃ pre data timestamp post,
       cs ++ [c] = pre ++ Update tag data timestamp :: post ∧
       is_Some (_sensors_objects (run_calls pre __init__) !! tag) ∧
       (∀ data' timestamp', Update tag data' timestamp' ∉ post) ∧
       _data_buffers (snd (do_call c s)) !! tag = Some data ∧
       _timestamps (snd (do_call c s)) !! tag = Some timestamp)).
  { intros Hs Hnu Hentry. unfold entry in Hentry.
    injection Hentry as _ Hbuf Hts. rewrite Hbuf, Hts.
    destruct (IH Hs) as [[Hb [Ht Hnever]] | [pre [d [t [post [E [Hp [Hpost [Hb Ht]]]]]]]]].
    - left. split; [assumption|]. split; [assumption|].
      intros pre d t post E. apply snoc_eq_middle in E as [[_ [_ E]] | [post' [_ E]]].
      + exfalso. eapply Hnu. exact E.
      + eapply Hnever. exact E.
    - right. exists pre, d, t, (post ++ [c]). split.
      { rewrite E. rewrite <- app_assoc. reflexivity. }
      split; [assumption|]. split; [|split; assumption].
      intros d' t' Hin. apply elem_of_app in Hin as [Hin|Hin].
      + eapply Hpost. exact Hin.
      + apply list_elem_of_singleton in Hin. eapply Hnu. symmetry. exact Hin. }
  destruct c as [t sensor | t data timestamp].
  - (* a registration *)
    destruct (decide (t = tag)) as [->|Hne].
    + destruct (_sensors_objects s !! tag) as [x|] eqn:Es.
      * apply Hlift; [eauto | discriminate |].
        simpl. rewrite register_sensor_present by (rewrite Es; eauto). reflexivity.
      * left. simpl. rewrite register_sensor_fresh by assumption. simpl.
        rewrite !lookup_insert_eq. split; [reflexivity|]. split; [reflexivity|].
        intros pre d t' post E.
        apply snoc_eq_middle in E as [[_ [_ E]] | [post' [_ E]]]; [discriminate|].
        apply eq_None_not_Some. intros Hpre.
        apply (run_calls_registered_mono (Update tag d t' :: post')) in Hpre.
        rewrite <- run_calls_app, <- E in Hpre. fold s in Hpre.
        rewrite Es in Hpre. by destruct Hpre.
    + assert (Hs : is_Some (_sensors_objects s !! tag)).
      { apply do_call_registered in Hreg as [H | [x Hx]]; [assumption|].
        injection Hx as Hx _. congruence. }
      apply Hlift; [assumption | discriminate |].
      apply do_call_frame; [|discriminate]. intros x Hx. injection Hx as Hx _. congruence.
  - (* an update *)
    destruct (decide (t = tag)) as [->|Hne].
    + destruct (_sensors_objects s !! tag) as [x|] eqn:Es.
      * right. exists cs, data, timestamp, []. split; [reflexivity|].
        fold s. split; [rewrite Es; eauto|]. split; [intros d' t' H; inversion H|].
        simpl. rewrite update_sensor_present by (rewrite Es; eauto). simpl.
        rewrite !lookup_insert_eq. split; reflexivity.
      * exfalso. simpl in Hreg. rewrite update_sensor_absent in Hreg by assumption.
        simpl in Hreg. rewrite Es in Hreg. by destruct Hreg.
    + assert (Hs : is_Some (_sensors_objects s !! tag)).
      { apply do_call_registered in Hreg as [H | [x Hx]]; [assumption | discriminate]. }
      apply Hlift; [assumption | |].
      * intros d' t' Hx. injection Hx as Hx _ _. congruence.
      * apply do_call_frame; [discriminate|].
        intros d' t' Hx. injection Hx as Hx _ _. congruence.
Qed.
End RegistryHistories.

Section RegistryClaims.
Context {Sensor Data : Type}.
Implicit Types (self : SensorInterface.t Sensor Data) (tag key : string).
Implicit Types (c : SensorInterface.call Sensor Data).
Import SensorInterface.

(** The last element with a property splits a list in one way only. *)
Lemma last_split_unique {A} (P : A → Prop) (pre pre' post post' : list A) x y :
  pre ++ x :: post = pre' ++ y :: post' →
  P x → P y →
  (∀ z, z ∈ post → ¬ P z) → (∀ z, z ∈ post' → ¬ P z) →
  x = y.
Proof.
  revert pre'. induction pre as [|a pre IH]; intros [|a' pre'] E Px Py Hpost Hpost'.
  - injection E as E _. assumption.
  - injection E as _ E. exfalso. apply (Hpost y); [|assumption].
    rewrite E. apply elem_of_app. right. left.
  - injection E as _ E. exfalso. apply (Hpost' x); [|assumption].
    rewrite <- E. apply elem_of_app. right. left.
  - injection E as _ E. eapply IH; eassumption.
Qed.

(** Updates that pass a payload keep every buffer that holds one. *)
Lemma valued_updates_keep_buffers (us : list (call Sensor Data)) self :
  Forall (λ c, ∃ tag a timestamp, c = Update tag (PyVal a) timestamp) us →
  (∀ key, is_Some (_sensors_objects self !! key) →
          ∃ a, _data_buffers self !! key = Some (PyVal a)) →
  ∀ key, is_Some (_sensors_objects (run_calls us self) !! key) →
         ∃ a, _data_buffers (run_calls us self) !! key = Some (PyVal a).
Proof.
  revert self. induction us as [|c us IH]; intros self Hus Hbuf; [exact Hbuf|].
  apply Forall_cons in Hus as [[tag [a [timestamp ->]]] Hus].
  change (run_calls (Update tag (PyVal a) timestamp :: us) self)
    with (run_calls us (snd (update_sensor tag (PyVal a) timestamp self))).
  apply IH; [assumption|]. intros key.
  destruct (_sensors_objects self !! tag) as [x|] eqn:E.
  - rewrite update_sensor_present by (rewrite E; eauto). simpl. intros Hk.
    destruct (decide (tag = key)) as [->|Hne].
    + exists a. apply lookup_insert_eq.
    + rewrite lookup_insert_ne by assumption. auto.
  - rewrite update_sensor_absent by assumption. simpl. auto.
Qed.

(** C1, amended. After any history of [register_sensor] and
    [update_sensor] calls on a new object, each call run to its end,
    [get_data] returns a dictionary which holds, for a registered tag,
    either the pair [(-1, None)] of its registration, and then no update of
    the tag went through, or the timestamp and the data that the last
    [update_sensor] call for the tag passed together. *)
Theorem get_data_returns_latest_update (cs : list (call Sensor Data)) tag :
  is_Some (_sensors_objects (run_calls cs __init__) !! tag) →
  ∃ m, get_data (run_calls cs __init__) = (Ok m, run_calls cs __init__) ∧
    ((m !! tag = Some (-1, PyNone) ∧
      ∀ pre data timestamp post,
        cs = pre ++ Update tag data timestamp :: post →
        _sensors_objects (run_calls pre __init__) !! tag = None)
     ∨
     (∃ pre data timestamp post,
        cs = pre ++ Update tag data timestamp :: post ∧
        is_Some (_sensors_objects (run_calls pre __init__) !! tag) ∧
        (∀ data' timestamp', Update tag data' timestamp' ∉ post) ∧
        m !! tag = Some (timestamp, data))).
Proof.
  intros Hreg.
  destruct (get_data_spec (run_calls cs __init__)) as [m [Hm [Hin _]]].
  { apply consistent_run_calls, consistent_init. }
  exists m. split; [assumption|].
  destruct (Hin tag Hreg) as [ts [d [Hts [Hd Hlook]]]].
  destruct (entry_history cs tag Hreg)
    as [[Hb [Ht Hnever]] | [pre [d' [t' [post [E [Hp [Hpost [Hb Ht]]]]]]]]].
  - left. split; [|assumption]. rewrite Hlook. congruence.
  - right. exists pre, d', t', post. repeat (split; [assumption|]).
    rewrite Hlook. congruence.
Qed.

(** C2, amended. [all_sensors_ready] returns [False] while a registered
    tag has never received an update; it returns [True] exactly when the
    last update of every registered tag passed data other than [None];
    and once [True] it stays [True] under further [update_sensor] calls
    that pass data other than [None]. *)
Theorem all_sensors_ready_valued_updates (cs us : list (call Sensor Data)) :
  Forall (λ c, ∃ tag a timestamp, c = Update tag (PyVal a) timestamp) us →
  ∃ b b',
    all_sensors_ready (run_calls cs __init__) = (Ok b, run_calls cs __init__) ∧
    all_sensors_ready (run_calls us (run_calls cs __init__))
      = (Ok b', run_calls us (run_calls cs __init__)) ∧
    ((∃ tag, is_Some (_sensors_objects (run_calls cs __init__) !! tag) ∧
             ∀ pre data timestamp post,
               cs = pre ++ Update tag data timestamp :: post →
               _sensors_objects (run_calls pre __init__) !! tag = None) →
     b = false) ∧
    (b = true ↔
     ∀ tag, is_Some (_sensors_objects (run_calls cs __init__) !! tag) →
            ∃ pre a timestamp post,
              cs = pre ++ Update tag (PyVal a) timestamp :: post ∧
              is_Some (_sensors_objects (run_calls pre __init__) !! tag) ∧
              ∀ data' timestamp', Update tag data' timestamp' ∉ post) ∧
    (b = true → b' = true).
Proof.
  intros Hus. set (s := run_calls cs __init__).
  assert (Hc : consistent s) by apply consistent_run_calls, consistent_init.
  destruct (all_sensors_ready_spec s Hc) as [b [Hb Hiff]].
  destruct (all_sensors_ready_spec (run_calls us s)) as [b' [Hb' Hiff']].
  { apply consistent_run_calls, Hc. }
  assert (Hlast : b = true ↔
     ∀ tag, is_Some (_sensors_objects s !! tag) →
            ∃ pre a timestamp post,
              cs = pre ++ Update tag (PyVal a) timestamp :: post ∧
              is_Some (_sensors_objects (run_calls pre __init__) !! tag) ∧
              ∀ data' timestamp', Update tag data' timestamp' ∉ post).
  { rewrite Hiff. split; intros H tag Hreg.
    - destruct (H tag Hreg) as [a Ha].
      destruct (entry_history cs tag Hreg)
        as [[Hnone _] | [pre [d [t [post [E [Hp [Hpost [Hd _]]]]]]]]].
      + fold s in Hnone. congruence.
      + fold s in Hd. exists pre, a, t, post.
        replace (PyVal a) with d by congruence. auto.
    - destruct (H tag Hreg) as [pre [a [t [post [E [Hp Hpost]]]]]].
      exists a.
      destruct (entry_history cs tag Hreg)
        as [[_ [_ Hnever]] | [pre' [d' [t' [post' [E' [_ [Hpost' [Hd _]]]]]]]]].
      + rewrite (Hnever _ _ _ _ E) in Hp. by destruct Hp.
      + fold s in Hd. rewrite Hd. f_equal.
        assert (Heq : @Update Sensor Data tag d' t' = Update tag (PyVal a) t).
        { apply (last_split_unique (λ c : call Sensor Data, ∃ d1 t1, c = Update tag d1 t1)
                   pre' pre post' post); [congruence | eauto | eauto | |].
          - intros z Hz [d1 [t1 ->]]. eapply Hpost'. exact Hz.
          - intros z Hz [d1 [t1 ->]]. eapply Hpost. exact Hz. }
        congruence. }
  exists b, b'. split; [assumption|]. split; [assumption|]. split; [|split].
  - intros [tag [Hreg Hnever]]. destruct b; [|reflexivity]. exfalso.
    destruct (proj1 Hlast eq_refl tag Hreg) as [pre [a [t [post [E [Hp _]]]]]].
    rewrite (Hnever _ _ _ _ E) in Hp. by destruct Hp.
  - exact Hlast.
  - intros ->. apply Hiff'.
    apply valued_updates_keep_buffers; [assumption|]. apply Hiff. reflexivity.
Qed.

(** C5. [register_sensor] on a tag that is already registered raises the
    [ValueError] for a duplicated tag and leaves the object, and with it
    the entry of the tag, as it was. *)
Theorem register_sensor_duplicate self tag sensor :
  is_Some (_sensors_objects self !! tag) →
  register_sensor tag sensor self
    = (Raise (ValueError ("Duplicated sensor tag [" +:+ tag +:+ "]")), self) ∧
  entry tag (snd (register_sensor tag sensor self)) = entry tag self.
Proof.
  intros Hin. rewrite register_sensor_present by assumption. split; reflexivity.
Qed.

(** C6. After a history of calls in which a tag was never registered,
    [update_sensor] for that tag raises the [ValueError] for a sensor that
    has not been created, leaves the object as it was, and the tag has no
    entry. *)
Theorem update_sensor_unregistered self (cs : list (call Sensor Data))
    tag data timestamp :
  _sensors_objects self !! tag = None →
  (∀ sensor, Register tag sensor ∉ cs) →
  update_sensor tag data timestamp (run_calls cs self)
    = (Raise (ValueError ("The sensor with tag [" +:+ tag
                          +:+ "] has not been created!")),
       run_calls cs self) ∧
  _sensors_objects (snd (update_sensor tag data timestamp (run_calls cs self)))
    !! tag = None.
Proof.
  intros Hnone Hnever.
  pose proof (run_calls_never_registered cs self tag Hnone Hnever) as H.
  rewrite update_sensor_absent by assumption. split; [reflexivity | exact H].
Qed.

(** C9. On a new object, with no tag registered, [all_sensors_ready]
    returns [True]. *)
Theorem all_sensors_ready_init :
  all_sensors_ready (@__init__ Sensor Data) = (Ok true, __init__).
Proof.
  unfold all_sensors_ready, keys. simpl. rewrite map_to_list_empty. reflexivity.
Qed.

(** C10. An [update_sensor] call for a tag leaves the entry of every other
    registered tag as it was, and a [register_sensor] call for a new tag
    leaves the entry of every registered tag as it was. *)
Theorem calls_leave_other_entries self tag other sensor data timestamp :
  is_Some (_sensors_objects self !! other) →
  (other ≠ tag →
   fst (update_sensor tag data timestamp self) = Ok tt →
   entry other (snd (update_sensor tag data timestamp self)) = entry other self) ∧
  (fst (register_sensor tag sensor self) = Ok tt →
   entry other (snd (register_sensor tag sensor self)) = entry other self).
Proof.
  intros Hother. split.
  - intros Hne _. apply (do_call_frame self (Update tag data timestamp)).
    + discriminate.
    + intros d t E. injection E as E _ _. congruence.
  - intros Hok. apply (do_call_frame self (Register tag sensor)).
    + intros x E. injection E as E _. subst other.
      rewrite register_sensor_present in Hok by assumption. discriminate.
    + discriminate.
Qed.
End RegistryClaims.

(** ** The registry on concrete histories *)

Section RegistryExamples.
Import SensorInterface.

(** Two sensors, the first updated twice. *)
Example get_data_two_sensors :
  fst (get_data (run_calls [Register "rgb" tt; Register "gps" tt;
                            Update "rgb" (PyVal 7%nat) 3;
                            Update "rgb" (PyVal 9%nat) 4] __init__))
  = Ok (<["rgb" := (4, PyVal 9%nat)]> (<["gps" := (-1, PyNone)]> ∅)).
Proof. vm_compute. reflexivity. Qed.

Lemma get_data_returns_latest_update_witness :
  let cs := [Register "gps" tt; Update "gps" (PyVal 7%nat) 3;
             Update "gps" (PyVal 9%nat) 4] in
  is_Some (_sensors_objects (run_calls cs __init__) !! "gps"%string) ∧
  ∃ m, get_data (run_calls cs __init__) = (Ok m, run_calls cs __init__) ∧
    ((m !! "gps"%string = Some (-1, PyNone) ∧
      ∀ pre data timestamp post,
        cs = pre ++ Update "gps" data timestamp :: post →
        _sensors_objects (run_calls pre __init__) !! "gps"%string = None)
     ∨
     (∃ pre data timestamp post,
        cs = pre ++ Update "gps" data timestamp :: post ∧
        is_Some (_sensors_objects (run_calls pre __init__) !! "gps"%string) ∧
        (∀ data' timestamp', Update "gps" data' timestamp' ∉ post) ∧
        m !! "gps"%string = Some (timestamp, data))).
Proof.
  intros cs.
  assert (H : is_Some (_sensors_objects (run_calls cs __init__) !! "gps"%string)).
  { vm_compute. eexists. reflexivity. }
  split; [exact H|]. exact (get_data_returns_latest_update cs "gps" H).
Defined.

(** C1 fails: [update_sensor] is two assignments and takes no lock. With
    the sensor updated once, with data 7 and timestamp 3, a second update
    with data 9 and timestamp 4 is the assignment of the data followed by
    the assignment of the timestamp; [get_data] run between the two returns
    the timestamp 3 of the first call with the data 9 of the second. *)
Lemma get_data_between_assignments :
  let s := run_calls [Register "gps" tt; Update "gps" (PyVal 7%nat) 3] __init__ in
  let between := snd (set_data_buffer "gps" (PyVal 9%nat) s) in
  update_sensor "gps" (PyVal 9%nat) 4 s = set_timestamp "gps" 4 between ∧
  fst (get_data s) = Ok (<["gps" := (3, PyVal 7%nat)]> ∅) ∧
  fst (get_data between) = Ok (<["gps" := (3, PyVal 9%nat)]> ∅) ∧
  fst (get_data (snd (update_sensor "gps" (PyVal 9%nat) 4 s)))
  = Ok (<["gps" := (4, PyVal 9%nat)]> ∅).
Proof. vm_compute. repeat split; reflexivity. Qed.

(** C2 fails: with its one sensor updated, the object is ready; a further
    update that passes [None] goes through and the object is no longer
    ready, though the sensor has received two updates. *)
Lemma all_sensors_ready_reverts :
  let s := run_calls [Register "gps" tt; Update "gps" (PyVal 7%nat) 3] __init__ in
  all_sensors_ready s = (Ok true, s) ∧
  fst (update_sensor "gps" PyNone 4 s) = Ok tt ∧
  fst (all_sensors_ready (snd (update_sensor "gps" PyNone 4 s))) = Ok false.
Proof. vm_compute. repeat split; reflexivity. Qed.

Lemma all_sensors_ready_valued_updates_witness :
  let cs := [Register "rgb" tt; Register "gps" tt;
             Update "rgb" (PyVal 7%nat) 3; Update "gps" (PyVal 8%nat) 3] in
  let us := [Update "rgb" (PyVal 9%nat) 4] in
  Forall (λ c, ∃ tag a timestamp, c = Update tag (PyVal a) timestamp) us ∧
  ∃ b b',
    all_sensors_ready (run_calls cs __init__) = (Ok b, run_calls cs __init__) ∧
    all_sensors_ready (run_calls us (run_calls cs __init__))
      = (Ok b', run_calls us (run_calls cs __init__)) ∧
    ((∃ tag, is_Some (_sensors_objects (run_calls cs __init__) !! tag) ∧
             ∀ pre data timestamp post,
               cs = pre ++ Update tag data timestamp :: post →
               _sensors_objects (run_calls pre __init__) !! tag = None) →
     b = false) ∧
    (b = true ↔
     ∀ tag, is_Some (_sensors_objects (run_calls cs __init__) !! tag) →
            ∃ pre a timestamp post,
              cs = pre ++ Update tag (PyVal a) timestamp :: post ∧
              is_Some (_sensors_objects (run_calls pre __init__) !! tag) ∧
              ∀ data' timestamp', Update tag data' timestamp' ∉ post) ∧
    (b = true → b' = true).
Proof.
  intros cs us.
  assert (H : Forall (λ c : call unit nat,
                        ∃ tag a timestamp, c = Update tag (PyVal a) timestamp) us).
  { repeat constructor. eexists _, _, _. reflexivity. }
  split; [exact H|]. exact (all_sensors_ready_valued_updates cs us H).
Defined.

Lemma register_sensor_duplicate_witness :
  let self := run_calls [Register "gps" tt; Update "gps" (PyVal 7%nat) 3] __init__ in
  is_Some (_sensors_objects self !! "gps"%string) ∧
  register_sensor "gps" tt self
    = (Raise (ValueError "Duplicated sensor tag [gps]"), self) ∧
  entry "gps" (snd (register_sensor "gps" tt self)) = entry "gps" self.
Proof.
  intros self.
  assert (H : is_Some (_sensors_objects self !! "gps"%string)).
  { vm_compute. eexists. reflexivity. }
  split; [exact H|]. exact (register_sensor_duplicate self "gps" tt H).
Defined.

Lemma update_sensor_unregistered_witness :
  let cs := [Register "rgb" tt; Update "rgb" (PyVal 7%nat) 3] in
  (@__init__ unit nat).(_sensors_objects) !! "gps"%string = None ∧
  (∀ sensor, Register "gps" sensor ∉ cs) ∧
  update_sensor "gps" (PyVal 9%nat) 4 (run_calls cs __init__)
    = (Raise (ValueError "The sensor with tag [gps] has not been created!"),
       run_calls cs __init__) ∧
  _sensors_objects (snd (update_sensor "gps" (PyVal 9%nat) 4 (run_calls cs __init__)))
    !! "gps"%string = None.
Proof.
  intros cs.
  assert (H0 : (@__init__ unit nat).(_sensors_objects) !! "gps"%string = None)
    by reflexivity.
  assert (H1 : ∀ sensor, Register "gps" sensor ∉ cs).
  { intros sensor H.
    apply elem_of_cons in H as [H|H]; [discriminate|].
    apply elem_of_cons in H as [H|H]; [discriminate|]. inversion H. }
  split; [exact H0|]. split; [exact H1|].
  exact (update_sensor_unregistered __init__ cs "gps" (PyVal 9%nat) 4 H0 H1).
Defined.

Lemma calls_leave_other_entries_witness :
  let self := run_calls [Register "rgb" tt; Register "gps" tt;
                         Update "gps" (PyVal 7%nat) 3] __init__ in
  is_Some (_sensors_objects self !! "gps"%string) ∧
  entry "gps" (snd (update_sensor "rgb" (PyVal 9%nat) 4 self)) = entry "gps" self ∧
  entry "gps" (snd (register_sensor "lidar" tt self)) = entry "gps" self.
Proof.
  intros self.
  assert (H : is_Some (_sensors_objects self !! "gps"%string)).
  { vm_compute. eexists. reflexivity. }
  split; [exact H|]. split.
  - apply (proj1 (calls_leave_other_entries self "rgb" "gps" tt (PyVal 9%nat) 4 H)).
    + discriminate.
    + reflexivity.
  - apply (proj2 (calls_leave_other_entries self "lidar" "gps" tt (PyVal 9%nat) 4 H)).
    reflexivity.
Defined.
End RegistryExamples.

(** ** The arrays the parsers build *)

Section Rows.
Context {A : Type}.
Implicit Types (l : list A) (n k : nat).

Lemma length_rows n k l : length (np.rows n k l) = n.
Proof. revert l. induction n as [|n IH]; intros l; simpl; [|rewrite IH]; reflexivity. Qed.

(** Each row is full when the list is long enough. *)
Lemma Forall_length_rows n k l :
  (n * k ≤ length l)%nat → Forall (λ row, length row = k) (np.rows n k l).
Proof.
  revert l. induction n as [|n IH]; intros l Hlen; simpl; constructor.
  - apply length_take_le. lia.
  - apply IH. rewrite length_drop. lia.
Qed.

(** The rows, one after the other, are the front of the list. *)
Lemma concat_rows n k l : concat (np.rows n k l) = take (n * k) l.
Proof.
  revert l. induction n as [|n IH]; intros l; simpl; [reflexivity|].
  rewrite IH. rewrite <- (take_drop k l) at 3.
  destruct (decide (k ≤ length l)%nat) as [Hle|Hgt].
  - rewrite take_app_ge by (rewrite length_take_le; lia).
    rewrite length_take_le by assumption.
    replace (k + n * k - k)%nat with (n * k)%nat by lia. reflexivity.
  - rewrite (drop_ge l k) by lia. rewrite take_nil, !app_nil_r.
    rewrite take_take. f_equal. lia.
Qed.

Lemma rows_add n m k l :
  np.rows (n + m) k l = np.rows n k l ++ np.rows m k (drop (n * k) l).
Proof.
  revert l. induction n as [|n IH]; intros l; simpl; [reflexivity|].
  rewrite IH, drop_drop. reflexivity.
Qed.

Lemma rows_take n k l m :
  (n * k ≤ m)%nat → np.rows n k (take m l) = np.rows n k l.
Proof.
  revert l m. induction n as [|n IH]; intros l m Hle; simpl; [reflexivity|].
  rewrite take_take, Nat.min_l by lia. f_equal.
  replace m with (k + (m - k))%nat at 1 by lia.
  rewrite <- take_drop_commute. apply IH. simpl in Hle. lia.
Qed.

(** Rows of rows, flattened once, are the rows of the whole. *)
Lemma concat_rows_rows n m k l :
  concat (map (np.rows m k) (np.rows n (m * k) l)) = np.rows (n * m) k l.
Proof.
  revert l. induction n as [|n IH]; intros l; simpl; [reflexivity|].
  rewrite IH, rows_add, rows_take by lia. reflexivity.
Qed.

Lemma frombuffer_f4_tobytes (xs : list np.f4) :
  np.frombuffer_f4 (np.tobytes xs) = Ok xs.
Proof.
  induction xs as [|[[[b0 b1] b2] b3] xs IH]; [reflexivity|].
  change (np.tobytes (((b0, b1, b2, b3)) :: xs))
    with (b0 :: b1 :: b2 :: b3 :: np.tobytes xs).
  simpl. rewrite IH. reflexivity.
Qed.
End Rows.

Section ParserClaims.
Context {Sensor Dict : Type}.
Implicit Types (self : SensorInterface.t Sensor (CallBack.Payload Dict)).
Implicit Types (tag : string).
Import CallBack.

(** C3, amended. For a buffer of floats whose number is a multiple of 3,
    [_parse_lidar_cb] builds number/3 rows of 3 floats each, in the order
    of the buffer, and updates the sensor with them; for any other number
    of floats [np.reshape] raises [ValueError] and nothing is updated. *)
Theorem lidar_points_rows lidar_data (xs : list np.f4) tag self :
  LidarMeasurement.raw_data lidar_data = np.tobytes xs →
  ((length xs `mod` 3 = 0)%nat →
   ∃ points,
     lidar_points lidar_data = Ok points ∧
     length points = (length xs / 3)%nat ∧
     Forall (λ row, length row = 3%nat) points ∧
     concat points = xs ∧
     _parse_lidar_cb lidar_data tag self
       = SensorInterface.update_sensor tag (PyVal (PointsArray points))
           (LidarMeasurement.frame_number lidar_data) self) ∧
  ((length xs `mod` 3 ≠ 0)%nat →
   lidar_points lidar_data = Raise (ValueError "cannot reshape array") ∧
   _parse_lidar_cb lidar_data tag self
     = (Raise (ValueError "cannot reshape array"), self)).
Proof.
  intros Hraw.
  assert (Hpoints : lidar_points lidar_data
                    = np.reshape2 xs (length xs / 3)%nat 3).
  { unfold lidar_points. rewrite Hraw, frombuffer_f4_tobytes. reflexivity. }
  split; intros Hmod.
  - assert (Hlen : (length xs = length xs / 3 * 3)%nat).
    { rewrite Nat.mul_comm. apply Nat.Div0.div_exact. assumption. }
    exists (np.rows (length xs / 3) 3 xs).
    assert (Hok : lidar_points lidar_data = Ok (np.rows (length xs / 3) 3 xs)).
    { rewrite Hpoints. unfold np.reshape2.
      rewrite (proj2 (Nat.eqb_eq _ _) Hlen). reflexivity. }
    split; [assumption|]. split; [apply length_rows|]. split; [|split].
    + apply Forall_length_rows. lia.
    + rewrite concat_rows. apply take_ge. lia.
    + unfold _parse_lidar_cb. rewrite Hok. reflexivity.
  - assert (Hne : (length xs ≠ length xs / 3 * 3)%nat).
    { intros Hlen. apply Hmod. apply Nat.Div0.div_exact.
      rewrite Nat.mul_comm. assumption. }
    assert (Hraise : lidar_points lidar_data = Raise (ValueError "cannot reshape array")).
    { rewrite Hpoints. unfold np.reshape2.
      rewrite (proj2 (Nat.eqb_neq _ _) Hne). reflexivity. }
    split; [assumption|]. unfold _parse_lidar_cb. rewrite Hraise. reflexivity.
Qed.

(** A pixel of four channels and what the parser keeps of it. *)
Lemma pixel_rgb (px : list byte) :
  length px = 4%nat →
  ∃ b g r a, px = [b; g; r; a] ∧ rev (take 3 px) = [r; g; b].
Proof.
  destruct px as [|b [|g [|r [|a [|]]]]]; try discriminate.
  intros _. exists b, g, r, a. split; reflexivity.
Qed.

(** C4. For a buffer of [height * width] pixels of four bytes each,
    [_parse_image_cb] builds [height] rows of [width] pixels, each pixel
    the first three bytes of the matching pixel of the buffer in reverse
    order, that is [width * height * 3] bytes in all, and updates the
    sensor with them; on the 2 by 2 buffer 10, 20, 30, 255, ..., 120, 255
    the array is [[30,20,10],[60,50,40]],[[90,80,70],[120,110,100]]. *)
Theorem image_array_rgb :
  (∀ image tag self,
     length (Image.raw_data image)
       = (Image.height image * Image.width image * 4)%nat →
     ∃ array,
       image_array image = Ok array ∧
       length array = Image.height image ∧
       Forall (λ row, length row = Image.width image) array ∧
       Forall2 (λ px out, ∃ b g r a, px = [b; g; r; a] ∧ out = [r; g; b])
         (np.rows (Image.height image * Image.width image) 4 (Image.raw_data image))
         (concat array) ∧
       length (concat (concat array))
         = (Image.width image * Image.height image * 3)%nat ∧
       _parse_image_cb image tag self
         = SensorInterface.update_sensor tag (PyVal (ImageArray array))
             (Image.frame_number image) self) ∧
  (let raw := [x0a; x14; x1e; xff;  x28; x32; x3c; xff;
               x46; x50; x5a; xff;  x64; x6e; x78; xff] in
   map Byte.to_N raw
     = [10; 20; 30; 255;  40; 50; 60; 255;  70; 80; 90; 255;  100; 110; 120; 255]%N ∧
   ∃ array,
     image_array {| Image.raw_data := raw; Image.width := 2; Image.height := 2;
                    Image.frame_number := 0 |} = Ok array ∧
     map (map (map Byte.to_N)) array
       = [[[30; 20; 10]; [60; 50; 40]]; [[90; 80; 70]; [120; 110; 100]]]%N).
Proof.
  split.
  - intros [raw w h fn] tag self Hlen. simpl in Hlen |- *.
    set (array := np.reverse_channels (np.first3_channels
                    (map (np.rows w 4) (np.rows h (w * 4) raw)))).
    assert (Hok : image_array (Image.Build_t raw w h fn) = Ok array).
    { unfold image_array, np.frombuffer_uint8, deepcopy, np.reshape3. simpl.
      rewrite (proj2 (Nat.eqb_eq _ _) Hlen). reflexivity. }
    assert (Hconcat : concat array = map (λ px, rev (take 3 px)) (np.rows (h * w) 4 raw)).
    { unfold array, np.reverse_channels, np.first3_channels.
      rewrite <- concat_rows_rows, !map_map, !concat_map, !map_map.
      f_equal. apply map_ext. intros row. rewrite map_map. reflexivity. }
    assert (Hpix : Forall (λ px, length px = 4%nat) (np.rows (h * w) 4 raw)).
    { apply Forall_length_rows. lia. }
    exists array. split; [assumption|]. split; [|split; [|split; [|split]]].
    + unfold array, np.reverse_channels, np.first3_channels.
      rewrite !length_map. apply length_rows.
    + unfold array, np.reverse_channels, np.first3_channels.
      rewrite !map_map. apply Forall_map. apply Forall_forall. intros row _.
      simpl. rewrite !length_map. apply length_rows.
    + rewrite Hconcat. apply Forall2_fmap_r, Forall_Forall2_diag.
      eapply Forall_impl; [exact Hpix|]. intros px Hpx. simpl.
      destruct (pixel_rgb px Hpx) as [b [g [r [a [E1 E2]]]]].
      exists b, g, r, a. split; assumption.
    + rewrite Hconcat.
      assert (H3 : Forall (λ out : list byte, length out = 3%nat)
                     (map (λ px, rev (take 3 px)) (np.rows (h * w) 4 raw))).
      { apply Forall_map. eapply Forall_impl; [exact Hpix|].
        intros px Hpx. simpl. destruct (pixel_rgb px Hpx) as [b [g [r [a [_ ->]]]]].
        reflexivity. }
      assert (Hsum : ∀ ls : list (list byte),
                 Forall (λ out, length out = 3%nat) ls →
                 length (concat ls) = (length ls * 3)%nat).
      { intros ls Hls. induction Hls as [|x ls' Hx _ IH]; [reflexivity|].
        simpl. rewrite length_app, Hx, IH. reflexivity. }
      rewrite (Hsum _ H3), length_map, length_rows. lia.
    + unfold _parse_image_cb. rewrite Hok. reflexivity.
  - split; [reflexivity|]. eexists. split; reflexivity.
Qed.

(** C8, amended. [_parse_gnss_cb] builds an array of three floats of
    type [float32]: the latitude, the longitude and the altitude, in that
    order, each rounded to single precision, and updates the sensor with
    it. *)
Theorem gnss_array_float32 (gnss_data : GnssEvent.t) tag self :
  np.ndarray_dtype (gnss_array gnss_data) = np.float32 ∧
  length (np.tolist (gnss_array gnss_data)) = 3%nat ∧
  np.tolist (gnss_array gnss_data)
    = [np.astype np.float32 (GnssEvent.latitude gnss_data);
       np.astype np.float32 (GnssEvent.longitude gnss_data);
       np.astype np.float32 (GnssEvent.altitude gnss_data)] ∧
  _parse_gnss_cb gnss_data tag self
    = SensorInterface.update_sensor tag (PyVal (GnssArray (gnss_array gnss_data)))
        (GnssEvent.frame_number gnss_data) self.
Proof. repeat split. Qed.
End ParserClaims.

(** ** The parsers on concrete frames *)

Section ParserExamples.
Import CallBack.

(** Nine floats give three rows, in the order of the buffer. *)
Example lidar_points_nine_floats :
  let f := λ b : byte, (b, x00, x80, x3f) in
  lidar_points
    {| LidarMeasurement.raw_data :=
         np.tobytes (map f [x01; x02; x03; x04; x05; x06; x07; x08; x09]);
       LidarMeasurement.frame_number := 0 |}
  = Ok [[f x01; f x02; f x03]; [f x04; f x05; f x06]; [f x07; f x08; f x09]].
Proof. reflexivity. Qed.

Lemma lidar_points_rows_witness :
  let xs := map (λ b : byte, (b, x00, x80, x3f))
              [x01; x02; x03; x04; x05; x06; x07; x08; x09] in
  let lidar_data := {| LidarMeasurement.raw_data := np.tobytes xs;
                       LidarMeasurement.frame_number := 0 |} in
  let self := SensorInterface.run_calls [SensorInterface.Register "lidar" tt]
                (@SensorInterface.__init__ unit (Payload unit)) in
  LidarMeasurement.raw_data lidar_data = np.tobytes xs ∧
  (length xs `mod` 3 = 0)%nat ∧
  ∃ points,
    lidar_points lidar_data = Ok points ∧
    length points = (length xs / 3)%nat ∧
    Forall (λ row, length row = 3%nat) points ∧
    concat points = xs ∧
    _parse_lidar_cb lidar_data "lidar" self
      = SensorInterface.update_sensor "lidar" (PyVal (PointsArray points))
          (LidarMeasurement.frame_number lidar_data) self.
Proof.
  intros xs lidar_data self.
  split; [reflexivity|]. split; [reflexivity|].
  exact (proj1 (lidar_points_rows lidar_data xs "lidar" self eq_refl) eq_refl).
Defined.

(** C3 fails: on a buffer of ten floats [np.reshape] raises; no array of
    three rows is built and the sensor is not updated. *)
Lemma lidar_points_ten_floats :
  let xs := map (λ b : byte, (b, x00, x80, x3f))
              [x01; x02; x03; x04; x05; x06; x07; x08; x09; x0a] in
  let lidar_data := {| LidarMeasurement.raw_data := np.tobytes xs;
                       LidarMeasurement.frame_number := 0 |} in
  let self := SensorInterface.run_calls [SensorInterface.Register "lidar" tt]
                (@SensorInterface.__init__ unit (Payload unit)) in
  length xs = 10%nat ∧
  lidar_points lidar_data = Raise (ValueError "cannot reshape array") ∧
  (¬ ∃ points, lidar_points lidar_data = Ok points ∧ length points = 3%nat) ∧
  _parse_lidar_cb lidar_data "lidar" self
    = (Raise (ValueError "cannot reshape array"), self) ∧
  SensorInterface._data_buffers self !! "lidar"%string = Some PyNone.
Proof.
  intros xs lidar_data self. split; [reflexivity|]. split; [reflexivity|].
  split; [|split; reflexivity].
  intros [points [H _]]. vm_compute in H. discriminate.
Qed.

Lemma image_array_rgb_witness :
  let image := {| Image.raw_data := [x0a; x14; x1e; xff;  x28; x32; x3c; xff;
                                     x46; x50; x5a; xff;  x64; x6e; x78; xff];
                  Image.width := 2; Image.height := 2; Image.frame_number := 0 |} in
  let self := SensorInterface.run_calls [SensorInterface.Register "rgb" tt]
                (@SensorInterface.__init__ unit (Payload unit)) in
  length (Image.raw_data image)
    = (Image.height image * Image.width image * 4)%nat ∧
  ∃ array,
    image_array image = Ok array ∧
    length array = Image.height image ∧
    Forall (λ row, length row = Image.width image) array ∧
    Forall2 (λ px out, ∃ b g r a, px = [b; g; r; a] ∧ out = [r; g; b])
      (np.rows (Image.height image * Image.width image) 4 (Image.raw_data image))
      (concat array) ∧
    length (concat (concat array))
      = (Image.width image * Image.height image * 3)%nat ∧
    _parse_image_cb image "rgb" self
      = SensorInterface.update_sensor "rgb" (PyVal (ImageArray array))
          (Image.frame_number image) self.
Proof.
  intros image self. split; [reflexivity|].
  exact (proj1 (@image_array_rgb unit unit) image "rgb" self eq_refl).
Defined.

(** A frame that is wider than high: one row of two pixels. *)
Example image_array_one_row :
  image_array {| Image.raw_data := [x01; x02; x03; xff;  x04; x05; x06; xff];
                 Image.width := 2; Image.height := 1; Image.frame_number := 0 |}
  = Ok [[[x03; x02; x01]; [x06; x05; x04]]].
Proof. reflexivity. Qed.

(** A buffer that does not hold [height * width] pixels is refused. *)
Example image_array_short_buffer :
  image_array {| Image.raw_data := [x01; x02; x03; xff;  x04; x05; x06];
                 Image.width := 2; Image.height := 1; Image.frame_number := 0 |}
  = Raise (ValueError "cannot reshape array").
Proof. reflexivity. Qed.

(** C8 fails: the array is of type [float32], not [float64], and the
    latitude 0.1, a float of Python, is stored rounded to single
    precision. *)
Lemma gnss_array_not_float64 :
  let tenth := S754_finite false 7205759403792794 (-56) in
  let gnss_data := {| GnssEvent.latitude := tenth; GnssEvent.longitude := tenth;
                      GnssEvent.altitude := tenth; GnssEvent.frame_number := 0 |} in
  valid_binary 53 1024 tenth = true ∧
  np.ndarray_dtype (gnss_array gnss_data) ≠ np.float64 ∧
  np.tolist (gnss_array gnss_data)
    = [S754_finite false 13421773 (-27); S754_finite false 13421773 (-27);
       S754_finite false 13421773 (-27)] ∧
  np.tolist (gnss_array gnss_data) ≠ [tenth; tenth; tenth].
Proof.
  intros tenth gnss_data. split; [reflexivity|]. split; [discriminate|].
  split; [reflexivity|]. vm_compute. discriminate.
Qed.
End ParserExamples.

(** ** The polling threads *)

Section PollingFacts.
Context {Dict Measurement : Type}.
Variable make : Dict → Z → Measurement.
Variable number : Measurement → Z.
Hypothesis number_make : ∀ data n, number (make data n) = n.

(** From the counter [n] on, the loop numbers what it emits
    [n], [n + 1], [n + 2], ... *)
Lemma loop_frame_numbers reading_frequency (passes : list (Polling.Pass Dict))
    n latest_read :
  map number (Polling.emitted (Polling.loop make reading_frequency passes n latest_read))
  = map (λ i, n + Z.of_nat i)
      (seq 0 (length (Polling.emitted
                        (Polling.loop make reading_frequency passes n latest_read)))).
Proof.
  revert n latest_read.
  induction passes as [|p passes IH]; intros n latest_read; simpl; [reflexivity|].
  destruct (Polling.see_run_ps p); simpl; [|reflexivity].
  destruct (Polling.see_callback p); simpl; [|apply IH].
  destruct (one_over reading_frequency) as [period|e]; [|reflexivity].
  destruct (float_gt _ period); [|apply IH].
  destruct (Polling.see_call p) as [data|e]; [|reflexivity].
  destruct (Polling.see_listener p) as [[]|e]; simpl.
  - rewrite number_make, IH, Z.add_0_r. f_equal.
    rewrite <- seq_shift, map_map. apply map_ext. intros i. lia.
  - rewrite number_make, Z.add_0_r. reflexivity.
Qed.

(** The counter goes up by one for each measurement the listener took. *)
Lemma loop_frame_number_after reading_frequency (passes : list (Polling.Pass Dict))
    n latest_read :
  let r := Polling.loop make reading_frequency passes n latest_read in
  n + Z.of_nat (length (Polling.emitted r)) - 1 ≤ Polling.frame_number_after r
    ≤ n + Z.of_nat (length (Polling.emitted r)).
Proof.
  revert n latest_read.
  induction passes as [|p passes IH]; intros n latest_read; simpl; [lia|].
  destruct (Polling.see_run_ps p); simpl; [|lia].
  destruct (Polling.see_callback p); simpl; [|apply IH].
  destruct (one_over reading_frequency) as [period|e]; [|simpl; lia].
  destruct (float_gt _ period); [|apply IH].
  destruct (Polling.see_call p) as [data|e]; [|simpl; lia].
  destruct (Polling.see_listener p) as [[]|e]; simpl; [|lia].
  specialize (IH (n + 1) (Polling.see_latest p)). simpl in IH. lia.
Qed.

(** A pass that finds the flag set, a listener, and the period over,
    and whose two calls return: the loop emits once in each such pass. *)
Lemma loop_emits_each_due_pass (data : Dict) (k : nat) n :
  let p := {| Polling.see_run_ps := true; Polling.see_callback := true;
              Polling.see_capture := S754_finite false 4503599627370496 (-51);
              Polling.see_call := Ok data; Polling.see_listener := Ok tt;
              Polling.see_latest := S754_zero false |} in
  Polling.emitted (Polling.loop make float_one (repeat p k) n (S754_zero false))
  = map (λ i, make data (n + Z.of_nat i)) (seq 0 k).
Proof.
  intros p. revert n. induction k as [|k IH]; intros n; [reflexivity|].
  change (repeat p (S k)) with (p :: repeat p k).
  cbn [Polling.loop]. unfold p at 1 2 3 4 5 6. cbn [Polling.see_run_ps
    Polling.see_callback Polling.see_capture Polling.see_call
    Polling.see_listener Polling.see_latest negb].
  change (one_over float_one) with (Ok (SFdiv 53 1024 float_one float_one)).
  cbv iota beta.
  replace (float_gt (float_sub (S754_finite false 4503599627370496 (-51))
                       (S754_zero false)) (SFdiv 53 1024 float_one float_one))
    with true by (vm_compute; reflexivity).
  cbv iota beta. unfold Polling.emit. cbn [Polling.emitted].
  rewrite IH. cbn [seq map]. rewrite Z.add_0_r. f_equal.
  rewrite <- seq_shift, map_map. apply map_ext. intros i. f_equal. lia.
Qed.
End PollingFacts.

(** C7. The measurements that a run of [HDMapReader.run], and of
    [CANBusSensor.read_CAN_Bus], hands to its listener carry the frame
    numbers 0, 1, 2, ... in the order they are emitted. *)
Theorem frame_numbers_count_from_zero {Dict : Type}
    (reading_frequency now : spec_float) (passes : list (Polling.Pass Dict)) :
  map HDMapMeasurement.frame_number
    (Polling.emitted (HDMapReader.run (HDMapReader.__init__ reading_frequency) now passes))
  = map Z.of_nat
      (seq 0 (length (Polling.emitted
                        (HDMapReader.run (HDMapReader.__init__ reading_frequency)
                           now passes)))) ∧
  map CANBusMeasurement.frame_number
    (Polling.emitted
       (CANBusSensor.read_CAN_Bus (CANBusSensor.__init__ reading_frequency) now passes))
  = map Z.of_nat
      (seq 0 (length (Polling.emitted
                        (CANBusSensor.read_CAN_Bus
                           (CANBusSensor.__init__ reading_frequency) now passes)))).
Proof.
  split.
  - unfold HDMapReader.run, HDMapReader.__init__. simpl.
    rewrite (loop_frame_numbers HDMapMeasurement.Build HDMapMeasurement.frame_number)
      by reflexivity.
    apply map_ext. intros i. lia.
  - unfold CANBusSensor.read_CAN_Bus, CANBusSensor.__init__. simpl.
    rewrite (loop_frame_numbers CANBusMeasurement.Build CANBusMeasurement.frame_number)
      by reflexivity.
    apply map_ext. intros i. lia.
Qed.

(** A run of three passes: the first finds no listener, the other two emit. *)
Example run_three_passes :
  let idle := {| Polling.see_run_ps := true; Polling.see_callback := false;
                 Polling.see_capture := S754_zero false;
                 Polling.see_call := Ok 5%nat; Polling.see_listener := Ok tt;
                 Polling.see_latest := S754_zero false |} in
  let due := {| Polling.see_run_ps := true; Polling.see_callback := true;
                Polling.see_capture := S754_finite false 4503599627370496 (-51);
                Polling.see_call := Ok 5%nat; Polling.see_listener := Ok tt;
                Polling.see_latest := S754_zero false |} in
  Polling.emitted (HDMapReader.run (HDMapReader.__init__ float_one) (S754_zero false)
                     [idle; due; due])
  = [HDMapMeasurement.Build 5%nat 0; HDMapMeasurement.Build 5%nat 1].
Proof. vm_compute. reflexivity. Qed.

(** * More of the module *)

(** ** The registry: what a history of calls leaves *)

Section RegistryMore.
Context {Sensor Data : Type}.
Implicit Types (self : SensorInterface.t Sensor Data) (tag key : string).
Implicit Types (c : SensorInterface.call Sensor Data).
Import SensorInterface.

(** A sensor object, once stored for a tag, stays. *)
Lemma run_calls_sensor_kept (cs : list (call Sensor Data)) self tag sensor :
  _sensors_objects self !! tag = Some sensor →
  _sensors_objects (run_calls cs self) !! tag = Some sensor.
Proof.
  revert self. induction cs as [|c cs IH]; intros self Hs; [assumption|].
  change (run_calls (c :: cs) self) with (run_calls cs (snd (do_call c self))).
  apply IH. destruct c as [t x | t d ts]; simpl.
  - destruct (_sensors_objects self !! t) as [y|] eqn:E.
    + rewrite register_sensor_present by eauto. assumption.
    + rewrite register_sensor_fresh by assumption. simpl.
      rewrite lookup_insert_ne; [assumption | congruence].
  - destruct (_sensors_objects self !! t) as [y|] eqn:E.
    + rewrite update_sensor_present by eauto. assumption.
    + rewrite update_sensor_absent by assumption. assumption.
Qed.

(** X1. After any history of calls on a new object [get_data] does not
    raise, and the keys of the dictionary it returns are the registered
    tags. *)
Theorem get_data_keys_registered (cs : list (call Sensor Data)) :
  ∃ m, get_data (run_calls cs __init__) = (Ok m, run_calls cs __init__) ∧
       dom m = dom (_sensors_objects (run_calls cs __init__)).
Proof.
  destruct (get_data_spec (run_calls cs __init__)) as [m [Hm [Hin Hout]]].
  { apply consistent_run_calls, consistent_init. }
  exists m. split; [assumption|]. apply set_eq. intros key.
  rewrite !elem_of_dom. split.
  - intros Hk. destruct (_sensors_objects (run_calls cs __init__) !! key) eqn:E; [eauto|].
    rewrite (Hout key E) in Hk. by destruct Hk.
  - intros Hk. destruct (Hin key Hk) as [ts [d [_ [_ ->]]]]. eauto.
Qed.

(** X2. The registered tags after a history of calls on a new object are
    the tags of its [register_sensor] calls: no call removes a tag and
    [update_sensor] adds none. *)
Theorem registered_tags_of_history (cs : list (call Sensor Data)) tag :
  is_Some (_sensors_objects (run_calls cs __init__) !! tag) ↔
  ∃ sensor, Register tag sensor ∈ cs.
Proof.
  induction cs as [|c cs IH] using rev_ind.
  - simpl. rewrite lookup_empty. split.
    + intros [x Hx]. discriminate.
    + intros [x Hx]. inversion Hx.
  - rewrite run_calls_snoc, do_call_registered, IH. split.
    + intros [[x Hx] | [x ->]]; exists x; apply elem_of_app.
      * left. assumption.
      * right. apply list_elem_of_singleton. reflexivity.
    + intros [x Hx]. apply elem_of_app in Hx as [Hx|Hx].
      * left. eauto.
      * right. apply list_elem_of_singleton in Hx. eauto.
Qed.

(** X3. The sensor object kept for a tag is the one of the first
    [register_sensor] call for the tag; later calls for the tag do not
    replace it. *)
Theorem first_registration_kept (pre post : list (call Sensor Data)) tag sensor :
  (∀ sensor', Register tag sensor' ∉ pre) →
  _sensors_objects (run_calls (pre ++ Register tag sensor :: post) __init__) !! tag
  = Some sensor.
Proof.
  intros Hpre. rewrite run_calls_app.
  change (run_calls (Register tag sensor :: post) (run_calls pre __init__))
    with (run_calls post (snd (register_sensor tag sensor (run_calls pre __init__)))).
  apply run_calls_sensor_kept.
  rewrite register_sensor_fresh.
  - simpl. apply lookup_insert_eq.
  - apply run_calls_never_registered; [apply lookup_empty | assumption].
Qed.

(** X4. The last write wins: two [update_sensor] calls in a row for one
    tag leave the object as the second call alone does, whatever the
    timestamps are. *)
Theorem update_sensor_overwrites self tag data1 timestamp1 data2 timestamp2 :
  snd (update_sensor tag data2 timestamp2
         (snd (update_sensor tag data1 timestamp1 self)))
  = snd (update_sensor tag data2 timestamp2 self).
Proof.
  destruct (_sensors_objects self !! tag) as [x|] eqn:E.
  - rewrite (update_sensor_present self) by eauto. simpl.
    rewrite !update_sensor_present by (simpl; eauto). simpl.
    rewrite !insert_insert_eq. reflexivity.
  - rewrite (update_sensor_absent self tag data1) by assumption. reflexivity.
Qed.

(** X5. [update_sensor] calls for two different tags commute. *)
Theorem update_sensor_commutes self tag1 data1 timestamp1 tag2 data2 timestamp2 :
  tag1 ≠ tag2 →
  snd (update_sensor tag2 data2 timestamp2
         (snd (update_sensor tag1 data1 timestamp1 self)))
  = snd (update_sensor tag1 data1 timestamp1
           (snd (update_sensor tag2 data2 timestamp2 self))).
Proof.
  intros Hne.
  destruct (_sensors_objects self !! tag1) as [x1|] eqn:E1;
    destruct (_sensors_objects self !! tag2) as [x2|] eqn:E2.
  - rewrite (update_sensor_present self tag1), (update_sensor_present self tag2) by eauto.
    simpl. rewrite !update_sensor_present by (simpl; eauto). simpl.
    f_equal; apply insert_insert_ne; congruence.
  - rewrite (update_sensor_absent self tag2) by assumption. cbn [snd].
    rewrite (update_sensor_present self tag1) by eauto. cbn [snd].
    rewrite (update_sensor_absent _ tag2) by (simpl; assumption). reflexivity.
  - rewrite (update_sensor_absent self tag1) by assumption. cbn [snd].
    rewrite (update_sensor_present self tag2) by eauto. cbn [snd].
    rewrite (update_sensor_absent _ tag1) by (simpl; assumption). reflexivity.
  - rewrite (update_sensor_absent self tag1 data1 timestamp1) by assumption.
    rewrite (update_sensor_absent self tag2 data2 timestamp2) by assumption.
    cbn [snd].
    rewrite (update_sensor_absent self tag1 data1 timestamp1) by assumption.
    rewrite (update_sensor_absent self tag2 data2 timestamp2) by assumption.
    reflexivity.
Qed.

(** X6. Registering a new tag makes the object not ready, whatever it was
    before: [all_sensors_ready] returns [False] until the tag is updated. *)
Theorem register_sensor_unreadies (cs : list (call Sensor Data)) tag sensor :
  _sensors_objects (run_calls cs __init__) !! tag = None →
  all_sensors_ready (snd (register_sensor tag sensor (run_calls cs __init__)))
  = (Ok false, snd (register_sensor tag sensor (run_calls cs __init__))).
Proof.
  intros Hnew. set (s := run_calls cs __init__) in *.
  assert (Hc : consistent (snd (register_sensor tag sensor s))).
  { apply (consistent_do_call s (Register tag sensor)).
    apply consistent_run_calls, consistent_init. }
  destruct (all_sensors_ready_spec _ Hc) as [b [Hb Hiff]].
  rewrite Hb. destruct b; [|reflexivity]. exfalso.
  destruct (proj1 Hiff eq_refl tag) as [a Ha].
  - rewrite register_sensor_fresh by assumption. simpl.
    rewrite lookup_insert_eq. eauto.
  - rewrite register_sensor_fresh in Ha by assumption. simpl in Ha.
    rewrite lookup_insert_eq in Ha. discriminate.
Qed.

(** X7. The two reads agree: after any history of calls on a new object
    [all_sensors_ready] returns [True] exactly when no entry of the
    dictionary that [get_data] returns has [None] as its data. *)
Theorem all_sensors_ready_iff_get_data (cs : list (call Sensor Data)) :
  ∃ b m,
    all_sensors_ready (run_calls cs __init__) = (Ok b, run_calls cs __init__) ∧
    get_data (run_calls cs __init__) = (Ok m, run_calls cs __init__) ∧
    (b = true ↔ ∀ tag timestamp data, m !! tag = Some (timestamp, data) → data ≠ PyNone).
Proof.
  set (s := run_calls cs __init__).
  assert (Hc : consistent s) by apply consistent_run_calls, consistent_init.
  destruct (all_sensors_ready_spec s Hc) as [b [Hb Hiff]].
  destruct (get_data_spec s Hc) as [m [Hm [Hin Hout]]].
  exists b, m. split; [assumption|]. split; [assumption|].
  rewrite Hiff. split.
  - intros H tag ts d Hlook.
    destruct (_sensors_objects s !! tag) as [x|] eqn:E.
    + destruct (H tag) as [a Ha]; [eauto|].
      destruct (Hin tag) as [ts' [d' [_ [Hd' Hlook']]]]; [eauto|].
      assert (d = PyVal a) by congruence. subst d. discriminate.
    + rewrite (Hout tag E) in Hlook. discriminate.
  - intros H tag Hreg.
    destruct (Hin tag Hreg) as [ts [d [_ [Hd Hlook]]]].
    destruct d as [|a]; [|eauto]. exfalso. exact (H tag ts PyNone Hlook eq_refl).
Qed.
End RegistryMore.

(** ** The callbacks on the data provider *)

Section FromBuffer.
(** [np.frombuffer] with [dtype('f4')] takes the buffers of a whole number
    of floats, and no other. *)
Lemma frombuffer_f4_spec (raw : list byte) :
  ((length raw `mod` 4 = 0)%nat →
   ∃ xs, np.frombuffer_f4 raw = Ok xs ∧ raw = np.tobytes xs ∧
         length xs = (length raw / 4)%nat) ∧
  ((length raw `mod` 4 ≠ 0)%nat →
   np.frombuffer_f4 raw
   = Raise (ValueError "buffer size must be a multiple of element size")).
Proof.
  assert (H : ∀ n raw, (length raw ≤ n)%nat →
    ((length raw `mod` 4 = 0)%nat →
     ∃ xs, np.frombuffer_f4 raw = Ok xs ∧ raw = np.tobytes xs ∧
           length xs = (length raw / 4)%nat) ∧
    ((length raw `mod` 4 ≠ 0)%nat →
     np.frombuffer_f4 raw
     = Raise (ValueError "buffer size must be a multiple of element size"))).
  { clear raw. induction n as [|n IH]; intros raw Hlen.
    - destruct raw; [|simpl in Hlen; lia]. split.
      + intros _. exists []. repeat split.
      + intros Hmod. exfalso. apply Hmod. reflexivity.
    - destruct raw as [|b0 [|b1 [|b2 [|b3 rest]]]].
      + split; [intros _; exists []; repeat split | intros Hmod; exfalso; apply Hmod; reflexivity].
      + split; [discriminate | reflexivity].
      + split; [discriminate | reflexivity].
      + split; [discriminate | reflexivity].
      + assert (Hrest : (length rest ≤ n)%nat) by (simpl in Hlen; lia).
        destruct (IH rest Hrest) as [Hok Hbad].
        assert (Hmod : (length (b0 :: b1 :: b2 :: b3 :: rest) `mod` 4
                        = length rest `mod` 4)%nat).
        { change (length (b0 :: b1 :: b2 :: b3 :: rest)) with (4 + length rest)%nat.
          replace (4 + length rest)%nat with (length rest + 1 * 4)%nat by lia.
          apply Nat.Div0.mod_add. }
        assert (Hdiv : (length (b0 :: b1 :: b2 :: b3 :: rest) / 4
                        = S (length rest / 4))%nat).
        { change (length (b0 :: b1 :: b2 :: b3 :: rest)) with (4 + length rest)%nat.
          replace (4 + length rest)%nat with (length rest + 1 * 4)%nat by lia.
          rewrite Nat.div_add by discriminate. lia. }
        rewrite Hmod, Hdiv. split; intros Hm.
        * destruct (Hok Hm) as [xs [Hxs [Hraw Hl]]].
          exists ((b0, b1, b2, b3) :: xs).
          change (np.frombuffer_f4 (b0 :: b1 :: b2 :: b3 :: rest))
            with (match np.frombuffer_f4 rest with
                  | Ok xs => Ok ((b0, b1, b2, b3) :: xs)
                  | Raise e => Raise e
                  end).
          rewrite Hxs. split; [reflexivity|]. split; [|cbn [length]; rewrite Hl; reflexivity].
          rewrite Hraw. reflexivity.
        * change (np.frombuffer_f4 (b0 :: b1 :: b2 :: b3 :: rest))
            with (match np.frombuffer_f4 rest with
                  | Ok xs => Ok ((b0, b1, b2, b3) :: xs)
                  | Raise e => Raise e
                  end).
          rewrite (Hbad Hm). reflexivity. }
  exact (H (length raw) raw (le_n _)).
Qed.
End FromBuffer.

Section CallBackMore.
Context {Sensor Dict : Type}.
Implicit Types (self : SensorInterface.t Sensor (CallBack.Payload Dict)).
Implicit Types (tag : string) (data : CallBack.SensorData Dict).
Import CallBack.

(** A frame of [height * width] pixels of four bytes is taken, any other
    refused. *)
Lemma image_array_spec (image : Image.t) :
  (length (Image.raw_data image) = (Image.height image * Image.width image * 4)%nat →
   image_array image
   = Ok (np.reverse_channels (np.first3_channels
           (map (np.rows (Image.width image) 4)
              (np.rows (Image.height image) (Image.width image * 4)
                 (Image.raw_data image)))))) ∧
  (length (Image.raw_data image) ≠ (Image.height image * Image.width image * 4)%nat →
   image_array image = Raise (ValueError "cannot reshape array")).
Proof.
  unfold image_array, np.frombuffer_uint8, deepcopy, np.reshape3. split; intros H.
  - rewrite (proj2 (Nat.eqb_eq _ _) H). reflexivity.
  - rewrite (proj2 (Nat.eqb_neq _ _) H). reflexivity.
Qed.

(** A buffer of a whole number of points, of three floats of four bytes,
    is taken, any other refused. *)
Lemma lidar_points_spec (lidar_data : LidarMeasurement.t) :
  ((length (LidarMeasurement.raw_data lidar_data) `mod` 12 = 0)%nat →
   ∃ xs, LidarMeasurement.raw_data lidar_data = np.tobytes xs ∧
         lidar_points lidar_data
         = Ok (np.rows (length (LidarMeasurement.raw_data lidar_data) / 12) 3 xs)) ∧
  ((length (LidarMeasurement.raw_data lidar_data) `mod` 12 ≠ 0)%nat →
   ∃ msg, lidar_points lidar_data = Raise (ValueError msg)).
Proof.
  destruct lidar_data as [raw fn]. unfold lidar_points.
  cbn [LidarMeasurement.raw_data].
  destruct (frombuffer_f4_spec raw) as [Hok Hbad].
  pose proof (Nat.div_mod_eq (length raw) 4) as E4.
  pose proof (Nat.div_mod_eq (length raw) 12) as E12.
  pose proof (Nat.mod_upper_bound (length raw) 4) as B4.
  pose proof (Nat.mod_upper_bound (length raw) 12) as B12.
  destruct (decide (length raw `mod` 4 = 0)%nat) as [H4|H4].
  - destruct (Hok H4) as [xs [Hxs [Hraw Hlen]]]. rewrite Hxs.
    unfold deepcopy, np.reshape2. split; intros H12.
    + exists xs. split; [assumption|].
      pose proof (Nat.div_mod_eq (length xs) 3) as E3.
      pose proof (Nat.mod_upper_bound (length xs) 3) as B3.
      assert (Hrows : (length xs / 3 = length raw / 12)%nat) by lia.
      assert (Heq : (length xs = length xs / 3 * 3)%nat) by lia.
      rewrite (proj2 (Nat.eqb_eq _ _) Heq), Hrows. reflexivity.
    + pose proof (Nat.div_mod_eq (length xs) 3) as E3.
      pose proof (Nat.mod_upper_bound (length xs) 3) as B3.
      assert (Hne : (length xs ≠ length xs / 3 * 3)%nat) by lia.
      rewrite (proj2 (Nat.eqb_neq _ _) Hne). eauto.
  - rewrite (Hbad H4). split; intros H12; [lia | eauto].
Qed.

(** What [__call__] comes to: an update of its tag, a refusal that leaves
    the provider as it was, or nothing. *)
Lemma call_cases tag data self :
  (∃ obj timestamp,
     __call__ tag data self = SensorInterface.update_sensor tag obj timestamp self) ∨
  (∃ msg, __call__ tag data self = (Raise (ValueError msg), self)) ∨
  (data = IsOther ∧ __call__ tag data self = (Ok tt, self)).
Proof.
  destruct data as [image | lidar_data | gnss_data | speed | hd_package | ]; simpl.
  - unfold _parse_image_cb.
    destruct (decide (length (Image.raw_data image)
                      = (Image.height image * Image.width image * 4)%nat)) as [H|H].
    + rewrite (proj1 (image_array_spec image) H). left. eauto.
    + rewrite (proj2 (image_array_spec image) H). right. left. eauto.
  - unfold _parse_lidar_cb.
    destruct (decide (length (LidarMeasurement.raw_data lidar_data) `mod` 12 = 0)%nat)
      as [H|H].
    + destruct (proj1 (lidar_points_spec lidar_data) H) as [xs [_ ->]]. left. eauto.
    + destruct (proj2 (lidar_points_spec lidar_data) H) as [msg ->]. right. left. eauto.
  - left. unfold _parse_gnss_cb. eauto.
  - left. unfold _parse_speedometer. eauto.
  - left. unfold _parse_hdmap. eauto.
  - right. right. split; reflexivity.
Qed.

(** What an update that goes through leaves for its tag. *)
Lemma update_sensor_stores tag (obj : pyobj (Payload Dict)) timestamp self :
  fst (SensorInterface.update_sensor tag obj timestamp self) = Ok tt →
  SensorInterface._data_buffers
    (snd (SensorInterface.update_sensor tag obj timestamp self)) !! tag
  = Some obj ∧
  SensorInterface._timestamps
    (snd (SensorInterface.update_sensor tag obj timestamp self)) !! tag
  = Some timestamp.
Proof.
  destruct (SensorInterface._sensors_objects self !! tag) as [x|] eqn:E.
  - rewrite update_sensor_present by eauto. simpl.
    rewrite !lookup_insert_eq. auto.
  - rewrite update_sensor_absent by assumption. discriminate.
Qed.

(** An update that passes data other than [None] keeps a ready object
    ready; one that passes [None] for a registered tag makes it not
    ready. *)
Lemma update_sensor_ready tag (obj : pyobj (Payload Dict)) timestamp self :
  SensorInterface.consistent self →
  SensorInterface.all_sensors_ready self = (Ok true, self) →
  is_Some (SensorInterface._sensors_objects self !! tag) →
  SensorInterface.all_sensors_ready
    (snd (SensorInterface.update_sensor tag obj timestamp self))
  = (Ok (match obj with PyNone => false | PyVal _ => true end),
     snd (SensorInterface.update_sensor tag obj timestamp self)).
Proof.
  intros Hc Hready Hreg.
  destruct (all_sensors_ready_spec self Hc) as [b [Hb Hiff]].
  assert (b = true) by congruence. subst b.
  pose proof (consistent_do_call self (SensorInterface.Update tag obj timestamp) Hc)
    as Hc'.
  cbn [SensorInterface.do_call] in Hc'.
  destruct (all_sensors_ready_spec _ Hc') as [b' [Hb' Hiff']].
  rewrite Hb'. f_equal. f_equal. destruct obj as [|payload].
  - destruct b'; [|reflexivity]. exfalso.
    destruct (proj1 Hiff' eq_refl tag) as [a Ha].
    + rewrite update_sensor_present by assumption. exact Hreg.
    + rewrite update_sensor_present in Ha by assumption. simpl in Ha.
      rewrite lookup_insert_eq in Ha. discriminate.
  - apply Hiff'.
    apply (valued_updates_keep_buffers
             [SensorInterface.Update tag (PyVal payload) timestamp] self).
    + constructor; [eauto | constructor].
    + apply Hiff. reflexivity.
Qed.

(** X8. A second [CallBack] for the tag of an earlier one cannot be built:
    [__init__] raises the [ValueError] for a duplicated tag and leaves the
    data provider as the first [__init__] left it. *)
Theorem callback_init_twice self tag (sensor1 sensor2 : Sensor) :
  __init__ tag sensor2 (snd (__init__ tag sensor1 self))
  = (Raise (ValueError ("Duplicated sensor tag [" +:+ tag +:+ "]")),
     snd (__init__ tag sensor1 self)).
Proof.
  unfold __init__. apply register_sensor_present.
  apply (do_call_registered self (SensorInterface.Register tag sensor1) tag).
  right. eauto.
Qed.

(** X9. For a registered tag [__call__] goes through exactly when the frame
    is well formed: an image whose buffer holds [height * width * 4] bytes,
    a lidar measurement whose buffer holds a multiple of 12 bytes, or any
    frame of the other kinds. *)
Theorem call_accepts_iff tag data self :
  is_Some (SensorInterface._sensors_objects self !! tag) →
  (fst (__call__ tag data self) = Ok tt ↔
   match data with
   | IsImage image =>
       length (Image.raw_data image)
       = (Image.height image * Image.width image * 4)%nat
   | IsLidarMeasurement lidar_data =>
       (length (LidarMeasurement.raw_data lidar_data) `mod` 12 = 0)%nat
   | _ => True
   end).
Proof.
  intros Hreg.
  destruct data as [image | lidar_data | gnss_data | speed | hd_package | ];
    cbn [__call__].
  - unfold _parse_image_cb.
    destruct (decide (length (Image.raw_data image)
                      = (Image.height image * Image.width image * 4)%nat)) as [H|H].
    + rewrite (proj1 (image_array_spec image) H).
      rewrite update_sensor_present by assumption. tauto.
    + rewrite (proj2 (image_array_spec image) H). split; [discriminate | contradiction].
  - unfold _parse_lidar_cb.
    destruct (decide (length (LidarMeasurement.raw_data lidar_data) `mod` 12 = 0)%nat)
      as [H|H].
    + destruct (proj1 (lidar_points_spec lidar_data) H) as [xs [_ ->]].
      rewrite update_sensor_present by assumption. tauto.
    + destruct (proj2 (lidar_points_spec lidar_data) H) as [msg ->].
      split; [discriminate | contradiction].
  - unfold _parse_gnss_cb. rewrite update_sensor_present by assumption. tauto.
  - unfold _parse_speedometer. rewrite update_sensor_present by assumption. tauto.
  - unfold _parse_hdmap. rewrite update_sensor_present by assumption. tauto.
  - tauto.
Qed.

(** X10. A frame that [__call__] refuses changes nothing: when [__call__]
    raises, the exception is a [ValueError] and the data provider is as it
    was before the call. *)
Theorem call_refusal_leaves_provider tag data self e :
  fst (__call__ tag data self) = Raise e →
  snd (__call__ tag data self) = self ∧ ∃ msg, e = ValueError msg.
Proof.
  destruct (call_cases tag data self)
    as [[obj [ts ->]] | [[msg ->] | [_ ->]]]; simpl.
  - destruct (SensorInterface._sensors_objects self !! tag) as [x|] eqn:E.
    + rewrite update_sensor_present by eauto. discriminate.
    + rewrite update_sensor_absent by assumption. simpl.
      intros H. injection H as <-. eauto.
  - intros H. injection H as <-. eauto.
  - discriminate.
Qed.

(** X11. What a frame that goes through leaves for its tag: the array
    built from an image, a lidar measurement or a GNSS event, or the [data]
    of a CAN bus or HD map measurement as it came, a dictionary or [None];
    and as timestamp the frame number of the frame. *)
Theorem call_stores_frame tag data self :
  fst (__call__ tag data self) = Ok tt →
  data ≠ IsOther →
  ∃ obj,
    SensorInterface._data_buffers (snd (__call__ tag data self)) !! tag = Some obj ∧
    SensorInterface._timestamps (snd (__call__ tag data self)) !! tag
    = Some (match data with
            | IsImage image => Image.frame_number image
            | IsLidarMeasurement lidar_data => LidarMeasurement.frame_number lidar_data
            | IsGnssEvent gnss_data => GnssEvent.frame_number gnss_data
            | IsCANBusMeasurement speed => CANBusMeasurement.frame_number speed
            | IsHDMapMeasurement hd_package => HDMapMeasurement.frame_number hd_package
            | IsOther => -1
            end) ∧
    match data with
    | IsImage image =>
        ∃ array, image_array image = Ok array ∧ obj = PyVal (ImageArray array)
    | IsLidarMeasurement lidar_data =>
        ∃ points, lidar_points lidar_data = Ok points ∧ obj = PyVal (PointsArray points)
    | IsGnssEvent gnss_data => obj = PyVal (GnssArray (gnss_array gnss_data))
    | IsCANBusMeasurement speed =>
        match CANBusMeasurement.data speed with
        | PyNone => obj = PyNone
        | PyVal d => obj = PyVal (DictData d)
        end
    | IsHDMapMeasurement hd_package =>
        match HDMapMeasurement.data hd_package with
        | PyNone => obj = PyNone
        | PyVal d => obj = PyVal (DictData d)
        end
    | IsOther => False
    end.
Proof.
  destruct data as [image | lidar_data | gnss_data | speed | hd_package | ];
    cbn [__call__]; intros Hok Hother.
  - unfold _parse_image_cb in *. destruct (image_array image) as [array|e] eqn:E.
    + destruct (update_sensor_stores _ _ _ _ Hok) as [Hb Ht]. eauto 6.
    + discriminate.
  - unfold _parse_lidar_cb in *. destruct (lidar_points lidar_data) as [points|e] eqn:E.
    + destruct (update_sensor_stores _ _ _ _ Hok) as [Hb Ht]. eauto 6.
    + discriminate.
  - unfold _parse_gnss_cb in *.
    destruct (update_sensor_stores _ _ _ _ Hok) as [Hb Ht]. eauto.
  - unfold _parse_speedometer in *.
    destruct (update_sensor_stores _ _ _ _ Hok) as [Hb Ht].
    eexists. split; [exact Hb|]. split; [exact Ht|].
    destruct (CANBusMeasurement.data speed); reflexivity.
  - unfold _parse_hdmap in *.
    destruct (update_sensor_stores _ _ _ _ Hok) as [Hb Ht].
    eexists. split; [exact Hb|]. split; [exact Ht|].
    destruct (HDMapMeasurement.data hd_package); reflexivity.
  - contradiction.
Qed.

(** X12. Readiness after a frame: on an object whose three dictionaries
    have the same keys and on which [all_sensors_ready] returns [True], a
    [__call__] for a registered tag leaves it returning [True], whether the
    frame goes through or is refused, but for a CAN bus or HD map
    measurement whose [data] is [None]: that one is stored as [None] and
    [all_sensors_ready] returns [False]. *)
Theorem call_readiness tag data self :
  SensorInterface.consistent self →
  SensorInterface.all_sensors_ready self = (Ok true, self) →
  is_Some (SensorInterface._sensors_objects self !! tag) →
  SensorInterface.all_sensors_ready (snd (__call__ tag data self))
  = (Ok (match data with
         | IsCANBusMeasurement speed =>
             match CANBusMeasurement.data speed with
             | PyNone => false
             | PyVal _ => true
             end
         | IsHDMapMeasurement hd_package =>
             match HDMapMeasurement.data hd_package with
             | PyNone => false
             | PyVal _ => true
             end
         | _ => true
         end),
     snd (__call__ tag data self)).
Proof.
  intros Hc Hready Hreg.
  destruct data as [image | lidar_data | gnss_data | speed | hd_package | ];
    cbn [__call__].
  - unfold _parse_image_cb. destruct (image_array image) as [array|e].
    + apply (update_sensor_ready tag (PyVal (ImageArray array))); assumption.
    + exact Hready.
  - unfold _parse_lidar_cb. destruct (lidar_points lidar_data) as [points|e].
    + apply (update_sensor_ready tag (PyVal (PointsArray points))); assumption.
    + exact Hready.
  - unfold _parse_gnss_cb.
    apply (update_sensor_ready tag (PyVal (GnssArray (gnss_array gnss_data))));
      assumption.
  - unfold _parse_speedometer.
    rewrite (update_sensor_ready tag _ _ self Hc Hready Hreg).
    destruct (CANBusMeasurement.data speed); reflexivity.
  - unfold _parse_hdmap.
    rewrite (update_sensor_ready tag _ _ self Hc Hready Hreg).
    destruct (HDMapMeasurement.data hd_package); reflexivity.
  - exact Hready.
Qed.

(** X13. [__call__] is confined to its tag: it leaves the entry of every
    other tag as it was, and it registers and removes no tag. *)
Theorem call_leaves_other_tags tag other data self :
  other ≠ tag →
  SensorInterface.entry other (snd (__call__ tag data self))
  = SensorInterface.entry other self ∧
  ∀ key, is_Some (SensorInterface._sensors_objects (snd (__call__ tag data self)) !! key)
         ↔ is_Some (SensorInterface._sensors_objects self !! key).
Proof.
  intros Hne.
  destruct (call_cases tag data self)
    as [[obj [ts ->]] | [[msg ->] | [_ ->]]]; [|split; reflexivity ..].
  split.
  - apply (do_call_frame self (SensorInterface.Update tag obj ts)).
    + discriminate.
    + intros d t E. injection E as E _ _. congruence.
  - intros key.
    rewrite (do_call_registered self (SensorInterface.Update tag obj ts) key).
    split; [|tauto]. intros [H | [x Hx]]; [assumption | discriminate].
Qed.
End CallBackMore.

(** ** The polling threads: stopping, failing, waiting *)

Section PollingMore.
Context {Dict Measurement : Type}.
Variable make : Dict → Z → Measurement.
Implicit Types (passes pre post : list (Polling.Pass Dict)) (p : Polling.Pass Dict).
Implicit Types (n : Z) (latest_read reading_frequency : spec_float).

(** X14. Once the flag [_run_ps] is seen cleared, as [destroy] clears it,
    the loop returns: it emits what it had emitted before that pass and
    nothing more, whatever comes after. *)
Theorem loop_returns_when_flag_cleared reading_frequency pre p post n latest_read :
  Polling.see_run_ps p = false →
  Polling.emitted (Polling.loop make reading_frequency (pre ++ p :: post) n latest_read)
  = Polling.emitted (Polling.loop make reading_frequency pre n latest_read) ∧
  Polling.exit (Polling.loop make reading_frequency (pre ++ p :: post) n latest_read)
  ≠ Polling.Looping.
Proof.
  intros Hstop. revert n latest_read.
  induction pre as [|q pre IH]; intros n latest_read; simpl.
  - rewrite Hstop. simpl. split; [reflexivity | discriminate].
  - destruct (Polling.see_run_ps q); simpl; [|split; [reflexivity | discriminate]].
    destruct (Polling.see_callback q); simpl; [|apply IH].
    destruct (one_over reading_frequency) as [period|e];
      [|split; [reflexivity | discriminate]].
    destruct (float_gt _ period); [|apply IH].
    destruct (Polling.see_call q) as [data|e]; [|split; [reflexivity | discriminate]].
    destruct (Polling.see_listener q) as [[]|e]; [|split; [reflexivity | discriminate]].
    simpl. destruct (IH (n + 1) (Polling.see_latest q)) as [-> H]. split; [reflexivity | exact H].
Qed.

(** X15. A thread that has returned or died stays so: further passes
    change neither what was emitted, nor the counter, nor the exit. *)
Theorem loop_finished_is_final reading_frequency pre post n latest_read :
  Polling.exit (Polling.loop make reading_frequency pre n latest_read)
    ≠ Polling.Looping →
  Polling.loop make reading_frequency (pre ++ post) n latest_read
  = Polling.loop make reading_frequency pre n latest_read.
Proof.
  revert n latest_read.
  induction pre as [|p pre IH]; intros n latest_read; simpl; [congruence|].
  destruct (Polling.see_run_ps p); simpl; [|reflexivity].
  destruct (Polling.see_callback p); simpl; [|apply IH].
  destruct (one_over reading_frequency) as [period|e]; [|reflexivity].
  destruct (float_gt _ period); [|apply IH].
  destruct (Polling.see_call p) as [data|e]; [|reflexivity].
  destruct (Polling.see_listener p) as [[]|e]; [|reflexivity].
  simpl. intros H. rewrite IH by assumption. reflexivity.
Qed.

(** X16. The loop never takes back a measurement: what it has emitted
    after some passes is a prefix of what it has emitted after more. *)
Theorem loop_emitted_prefix reading_frequency passes post n latest_read :
  Polling.emitted (Polling.loop make reading_frequency passes n latest_read)
  `prefix_of`
  Polling.emitted (Polling.loop make reading_frequency (passes ++ post) n latest_read).
Proof.
  revert n latest_read.
  induction passes as [|p passes IH]; intros n latest_read; simpl; [apply prefix_nil|].
  destruct (Polling.see_run_ps p); simpl; [|reflexivity].
  destruct (Polling.see_callback p); simpl; [|apply IH].
  destruct (one_over reading_frequency) as [period|e]; [|reflexivity].
  destruct (float_gt _ period); [|apply IH].
  destruct (Polling.see_call p) as [data|e]; [|reflexivity].
  destruct (Polling.see_listener p) as [[]|e]; [|reflexivity].
  simpl. apply prefix_cons, IH.
Qed.

(** X17. Without a listener nothing is emitted and the counter stands
    still: while [listen] has not been called the loop only spins. *)
Theorem loop_without_listener reading_frequency passes n latest_read :
  Forall (λ p, Polling.see_callback p = false) passes →
  Polling.emitted (Polling.loop make reading_frequency passes n latest_read) = [] ∧
  Polling.frame_number_after (Polling.loop make reading_frequency passes n latest_read)
  = n ∧
  ∀ e, Polling.exit (Polling.loop make reading_frequency passes n latest_read)
       ≠ Polling.Died e.
Proof.
  intros Hall. induction Hall as [|p passes Hp _ IH]; simpl.
  - repeat split. discriminate.
  - destruct (Polling.see_run_ps p); simpl; [|repeat split; discriminate].
    rewrite Hp. simpl. exact IH.
Qed.

(** X18. With a reading frequency of zero nothing is ever emitted: the
    division [1 / self._reading_frequency] raises [ZeroDivisionError] in
    the first pass that finds a listener, and the thread dies. *)
Theorem loop_zero_frequency (sign : bool) passes n latest_read :
  Polling.emitted (Polling.loop make (S754_zero sign) passes n latest_read) = [] ∧
  (Polling.exit (Polling.loop make (S754_zero sign) passes n latest_read)
     = Polling.Died ZeroDivisionError ↔
   ∃ pre p post,
     passes = pre ++ p :: post ∧
     Forall (λ q, Polling.see_run_ps q = true ∧ Polling.see_callback q = false) pre ∧
     Polling.see_run_ps p = true ∧ Polling.see_callback p = true).
Proof.
  induction passes as [|p passes [IHe IHx]]; simpl.
  - split; [reflexivity|]. split; [discriminate|].
    intros [pre [q [post [E _]]]]. destruct pre; discriminate.
  - destruct (Polling.see_run_ps p) eqn:Hr; simpl.
    + destruct (Polling.see_callback p) eqn:Hc; simpl.
      * split; [reflexivity|]. split; [|reflexivity]. intros _.
        exists [], p, passes. repeat split; [constructor | assumption | assumption].
      * split; [assumption|]. rewrite IHx. split.
        -- intros [pre [q [post [-> [Hpre [Hq1 Hq2]]]]]].
           exists (p :: pre), q, post. repeat split; try assumption.
           constructor; [split; assumption | assumption].
        -- intros [pre [q [post [E [Hpre [Hq1 Hq2]]]]]].
           destruct pre as [|p' pre].
           ++ injection E as -> _. congruence.
           ++ injection E as -> E. apply Forall_cons in Hpre as [_ Hpre].
              exists pre, q, post. repeat split; assumption.
    + split; [reflexivity|]. split; [discriminate|].
      intros [pre [q [post [E [Hpre [Hq1 Hq2]]]]]].
      destruct pre as [|p' pre].
      * injection E as -> _. congruence.
      * injection E as -> _. apply Forall_cons in Hpre as [[H _] _]. congruence.
Qed.

(** X19. The loop keeps to its period: as long as the clock read in a pass
    is not more than [1 / self._reading_frequency] past [latest_read],
    nothing is emitted and the counter stands still. *)
Theorem loop_waits_for_period reading_frequency period passes n latest_read :
  one_over reading_frequency = Ok period →
  Forall (λ p, float_gt (float_sub (Polling.see_capture p) latest_read) period = false)
    passes →
  Polling.emitted (Polling.loop make reading_frequency passes n latest_read) = [] ∧
  Polling.frame_number_after (Polling.loop make reading_frequency passes n latest_read)
  = n.
Proof.
  intros Hperiod Hall. induction Hall as [|p passes Hp _ IH]; simpl.
  - split; reflexivity.
  - destruct (Polling.see_run_ps p); simpl; [|split; reflexivity].
    destruct (Polling.see_callback p); simpl; [|exact IH].
    rewrite Hperiod, Hp. exact IH.
Qed.

(** X20. The counter counts the emissions: unless an exception ended the
    thread, [_frame_number] after a run is its value before plus the
    number of measurements emitted. *)
Theorem loop_counter_counts_emitted reading_frequency passes n latest_read :
  (∀ e, Polling.exit (Polling.loop make reading_frequency passes n latest_read)
        ≠ Polling.Died e) →
  Polling.frame_number_after (Polling.loop make reading_frequency passes n latest_read)
  = n + Z.of_nat (length (Polling.emitted
                            (Polling.loop make reading_frequency passes n latest_read))).
Proof.
  revert n latest_read.
  induction passes as [|p passes IH]; intros n latest_read; simpl; [lia|].
  destruct (Polling.see_run_ps p); simpl; [|lia].
  destruct (Polling.see_callback p); simpl; [|apply IH].
  destruct (one_over reading_frequency) as [period|e]; [|simpl; lia].
  destruct (float_gt _ period); [|apply IH].
  destruct (Polling.see_call p) as [data|e]; [|simpl; lia].
  destruct (Polling.see_listener p) as [[]|e]; simpl.
  - intros H. rewrite IH by assumption. lia.
  - intros H. exfalso. apply (H e). reflexivity.
Qed.

(** X21. Pass by pass: a pass adds at most one measurement to what the
    loop has emitted, and it adds one exactly when the loop is still
    running, the pass sees the flag [_run_ps] set and a listener, the clock
    read in the pass is more than [1 / self._reading_frequency] past
    [latest_read], and [__call__] returns; the measurement then carries
    what [__call__] returned in that very pass, with the counter as its
    frame number. *)
Theorem loop_pass_emission reading_frequency pre p n latest_read :
  Polling.emitted (Polling.loop make reading_frequency (pre ++ [p]) n latest_read)
  = Polling.emitted (Polling.loop make reading_frequency pre n latest_read) ++
    match Polling.exit (Polling.loop make reading_frequency pre n latest_read),
          Polling.see_run_ps p, Polling.see_callback p,
          one_over reading_frequency, Polling.see_call p with
    | Polling.Looping, true, true, Ok period, Ok data =>
        if float_gt
             (float_sub (Polling.see_capture p)
                (Polling.latest_read_after reading_frequency pre latest_read))
             period
        then [make data
                (Polling.frame_number_after
                   (Polling.loop make reading_frequency pre n latest_read))]
        else []
    | _, _, _, _, _ => []
    end.
Proof.
  revert n latest_read.
  induction pre as [|q pre IH]; intros n latest_read.
  - cbn [app Polling.loop Polling.latest_read_after Polling.emitted Polling.exit
         Polling.frame_number_after].
    destruct (Polling.see_run_ps p); cbn [negb]; [|reflexivity].
    destruct (Polling.see_callback p); cbn [negb]; [|reflexivity].
    destruct (one_over reading_frequency) as [period|e]; [|reflexivity].
    destruct (float_gt _ period); [|destruct (Polling.see_call p); reflexivity].
    destruct (Polling.see_call p) as [data|e]; [|reflexivity].
    destruct (Polling.see_listener p) as [[]|e]; reflexivity.
  - change ((q :: pre) ++ [p]) with (q :: (pre ++ [p])).
    cbn [Polling.loop Polling.latest_read_after].
    destruct (Polling.see_run_ps q); cbn [negb]; [|reflexivity].
    destruct (Polling.see_callback q); cbn [negb]; [|apply IH].
    destruct (one_over reading_frequency) as [period|e] eqn:Hperiod; [|reflexivity].
    destruct (float_gt (float_sub (Polling.see_capture q) latest_read) period);
      [|rewrite IH, ?Hperiod; reflexivity].
    destruct (Polling.see_call q) as [data|e]; [|reflexivity].
    destruct (Polling.see_listener q) as [[]|e]; [|reflexivity].
    unfold Polling.emit.
    cbn [Polling.emitted Polling.exit Polling.frame_number_after].
    rewrite IH, ?Hperiod. reflexivity.
Qed.
End PollingMore.

(** ** What the pseudo sensors report *)

Section SensorCalls.

(** A string that no slash splits holds no slash. *)
Lemma basename_from_no_slash (from base : string) :
  (∀ s1 s2, base ≠ s1 +:+ "/" +:+ s2) →
  posixpath.basename_from from base = from.
Proof.
  induction base as [|c rest IH]; intros Hno; [reflexivity|].
  cbn [posixpath.basename_from].
  destruct (String.eqb_spec (String c EmptyString) "/") as [E|_].
  - exfalso. apply (Hno "" rest). injection E as ->. reflexivity.
  - apply IH. intros s1 s2 E. apply (Hno (String c s1) s2). rewrite E. reflexivity.
Qed.

Lemma basename_from_app (from dir base : string) :
  (∀ s1 s2, base ≠ s1 +:+ "/" +:+ s2) →
  posixpath.basename_from from (dir +:+ "/" +:+ base) = base.
Proof.
  intros Hno. revert from. induction dir as [|c dir IH]; intros from.
  - cbv [String.append]. cbn [posixpath.basename_from]. rewrite String.eqb_refl.
    apply basename_from_no_slash. assumption.
  - change (String c dir +:+ "/" +:+ base) with (String c (dir +:+ "/" +:+ base)).
    cbn [posixpath.basename_from].
    destruct (String.eqb (String c EmptyString) "/"); apply IH.
Qed.

(** X22. The map file that [HDMapReader.__call__] reports is named after
    the last component of the map's name: for a name [dir/base], or a name
    [base] without a slash, the file is [_CARLA_ROOT/HDMaps/base.ply]. *)
Theorem hdmap_map_file (root : string) (vehicle : carla.Vehicle) (dir base : string) :
  (∀ s1 s2, base ≠ s1 +:+ "/" +:+ s2) →
  carla.map_name vehicle = base ∨ carla.map_name vehicle = dir +:+ "/" +:+ base →
  ∃ items,
    HDMapReader.__call__ root vehicle = PyDict items ∧
    dict_get "map_file" items
    = Some (PyStr (root +:+ "/HDMaps/" +:+ base +:+ ".ply")).
Proof.
  intros Hno Hname. eexists. split; [reflexivity|]. simpl. do 3 f_equal.
  unfold posixpath.basename. destruct Hname as [-> | ->].
  - rewrite basename_from_no_slash by assumption. reflexivity.
  - rewrite basename_from_app by assumption. reflexivity.
Qed.

Lemma wheels_loop_map (wheels : list carla.WheelPhysicsControl) (acc : list pyvalue) :
  CANBusSensor.wheels_loop wheels acc
  = acc ++ map (λ wheel,
                  PyDict [("tire_friction", PyFloat (carla.tire_friction wheel));
                          ("damping_rate", PyFloat (carla.damping_rate wheel));
                          ("steer_angle", PyFloat (carla.steer_angle wheel));
                          ("disable_steering", PyBool (carla.disable_steering wheel))])
             wheels.
Proof.
  revert acc. induction wheels as [|wheel wheels IH]; intros acc; simpl.
  - rewrite app_nil_r. reflexivity.
  - rewrite IH, <- app_assoc. reflexivity.
Qed.

Lemma curve_loop_map (points : list carla.Vector2D) (acc : list pyvalue) :
  CANBusSensor.curve_loop points acc
  = acc ++ map (λ point, PyDict [("x", PyFloat (carla.x2 point));
                                 ("y", PyFloat (carla.y2 point))]) points.
Proof.
  revert acc. induction points as [|point points IH]; intros acc; simpl.
  - rewrite app_nil_r. reflexivity.
  - rewrite IH, <- app_assoc. reflexivity.
Qed.

(** X23. In the dictionary of [CANBusSensor.__call__] the entries
    [wheels], [torque_curve] and [steering_curve] hold one dictionary for
    each wheel and each point of the physics control, in its order, and the
    entry [center_of_mass] holds the x coordinate of the centre of mass
    under each of its keys [x], [y] and [z]. *)
Theorem canbus_call_lists (vehicle : carla.Vehicle) (speed : spec_float) :
  ∃ items,
    CANBusSensor.__call__ vehicle speed = PyDict items ∧
    dict_get "wheels" items
    = Some (PyList
        (map (λ wheel,
                PyDict [("tire_friction", PyFloat (carla.tire_friction wheel));
                        ("damping_rate", PyFloat (carla.damping_rate wheel));
                        ("steer_angle", PyFloat (carla.steer_angle wheel));
                        ("disable_steering", PyBool (carla.disable_steering wheel))])
           (carla.wheels (carla.get_physics_control vehicle)))) ∧
    dict_get "torque_curve" items
    = Some (PyList
        (map (λ point, PyDict [("x", PyFloat (carla.x2 point));
                               ("y", PyFloat (carla.y2 point))])
           (carla.torque_curve (carla.get_physics_control vehicle)))) ∧
    dict_get "steering_curve" items
    = Some (PyList
        (map (λ point, PyDict [("x", PyFloat (carla.x2 point));
                               ("y", PyFloat (carla.y2 point))])
           (carla.steering_curve (carla.get_physics_control vehicle)))) ∧
    ∃ com,
      dict_get "center_of_mass" items = Some (PyDict com) ∧
      dict_get "x" com
      = Some (PyFloat (carla.x (carla.center_of_mass (carla.get_physics_control vehicle)))) ∧
      dict_get "y" com = dict_get "x" com ∧
      dict_get "z" com = dict_get "x" com.
Proof.
  eexists. split; [reflexivity|]. simpl.
  rewrite wheels_loop_map, !curve_loop_map. simpl.
  repeat split. eexists. repeat split.
Qed.
End SensorCalls.

(** ** From the polling thread to the data provider *)

Section Delivery.
Context {Sensor Dict : Type}.
Implicit Types (self : SensorInterface.t Sensor (CallBack.Payload Dict)).
Implicit Types (tag : string).
Import SensorInterface.

(** Measurements handed one after the other to the callback of a
    registered tag leave the last one as the entry of the tag. *)
Lemma deliver_hdmap tag (ms : list (HDMapMeasurement.t (pyobj Dict))) self :
  consistent self →
  is_Some (_sensors_objects self !! tag) →
  consistent
    (fold_left (λ s m, snd (CallBack.__call__ tag (CallBack.IsHDMapMeasurement m) s))
       ms self) ∧
  is_Some
    (_sensors_objects
       (fold_left (λ s m, snd (CallBack.__call__ tag (CallBack.IsHDMapMeasurement m) s))
          ms self) !! tag) ∧
  ∀ meas, last ms = Some meas →
    _data_buffers
      (fold_left (λ s m, snd (CallBack.__call__ tag (CallBack.IsHDMapMeasurement m) s))
         ms self) !! tag
    = Some (CallBack.passed_on (HDMapMeasurement.data meas)) ∧
    _timestamps
      (fold_left (λ s m, snd (CallBack.__call__ tag (CallBack.IsHDMapMeasurement m) s))
         ms self) !! tag
    = Some (HDMapMeasurement.frame_number meas).
Proof.
  intros Hc Hreg. induction ms as [|x ms [IHc [IHr _]]] using rev_ind.
  - simpl. split; [assumption|]. split; [assumption|]. discriminate.
  - rewrite fold_left_app. cbn [fold_left CallBack.__call__].
    unfold CallBack._parse_hdmap.
    set (s := fold_left _ ms self) in *.
    rewrite update_sensor_present by assumption. cbn [snd].
    split; [|split].
    + pose proof (consistent_do_call s
        (Update tag (CallBack.passed_on (HDMapMeasurement.data x))
           (HDMapMeasurement.frame_number x)) IHc) as H.
      cbn [do_call] in H. rewrite update_sensor_present in H by assumption. exact H.
    + exact IHr.
    + intros meas Hlast. rewrite last_snoc in Hlast. injection Hlast as <-.
      cbn [_data_buffers _timestamps]. rewrite !lookup_insert_eq. split; reflexivity.
Qed.

(** X24. From the thread to the snapshot: when the measurements that a run
    of [HDMapReader.run] emits are handed, in order, to the callback of a
    registered tag, [get_data] then returns for the tag the [data] of the
    last measurement, as it was produced, with the number of measurements
    emitted minus one as its timestamp. *)
Theorem polled_measurements_reach_get_data
    (cs : list (call Sensor (CallBack.Payload Dict))) tag
    (reading_frequency now : spec_float) (passes : list (Polling.Pass (pyobj Dict)))
    (meas : HDMapMeasurement.t (pyobj Dict)) :
  is_Some (_sensors_objects (run_calls cs __init__) !! tag) →
  last (Polling.emitted
          (HDMapReader.run (HDMapReader.__init__ reading_frequency) now passes))
  = Some meas →
  ∃ m,
    fst (get_data
           (fold_left
              (λ s x, snd (CallBack.__call__ tag (CallBack.IsHDMapMeasurement x) s))
              (Polling.emitted
                 (HDMapReader.run (HDMapReader.__init__ reading_frequency) now passes))
              (run_calls cs __init__)))
    = Ok m ∧
    m !! tag
    = Some (Z.of_nat
              (length (Polling.emitted
                         (HDMapReader.run (HDMapReader.__init__ reading_frequency)
                            now passes))) - 1,
            match HDMapMeasurement.data meas with
            | PyNone => PyNone
            | PyVal d => PyVal (CallBack.DictData d)
            end).
Proof.
  intros Hreg Hlast.
  set (ms := Polling.emitted _) in *.
  assert (Hc : consistent (run_calls cs (@__init__ Sensor (CallBack.Payload Dict))))
    by apply consistent_run_calls, consistent_init.
  destruct (deliver_hdmap tag ms _ Hc Hreg) as [Hc' [Hreg' Hentry]].
  destruct (Hentry meas Hlast) as [Hbuf Hts].
  destruct (get_data_spec _ Hc') as [m [Hm [Hin _]]].
  exists m. rewrite Hm. split; [reflexivity|].
  destruct (Hin tag Hreg') as [ts [d [Hts' [Hd' ->]]]].
  assert (Hnum : HDMapMeasurement.frame_number meas = Z.of_nat (length ms) - 1).
  { pose proof (loop_frame_numbers (@HDMapMeasurement.Build (pyobj Dict))
                  HDMapMeasurement.frame_number (λ _ _, eq_refl)
                  reading_frequency passes 0 now) as Hnums.
    change (Polling.emitted (Polling.loop HDMapMeasurement.Build reading_frequency
                               passes 0 now)) with ms in Hnums.
    apply last_Some in Hlast as [ms' Hms]. rewrite Hms in Hnums |- *.
    rewrite length_app, Nat.add_1_r, seq_S, !map_app in Hnums. simpl in Hnums.
    apply app_inj_tail in Hnums as [_ Hn]. rewrite Hn, length_app. simpl. lia. }
  change (match HDMapMeasurement.data meas with
          | PyNone => PyNone
          | PyVal d => PyVal (CallBack.DictData d)
          end) with (@CallBack.passed_on Dict (HDMapMeasurement.data meas)).
  congruence.
Qed.
End Delivery.

(** ** The further properties on concrete inputs *)

Section MoreExamples.
Import SensorInterface.

Lemma first_registration_kept_witness :
  let pre := [Register "rgb" 1%nat; Update "gps" (PyVal 7%nat) 3] in
  let post := [Update "gps" (PyVal 8%nat) 4; Register "gps" 3%nat] in
  (∀ sensor', Register "gps" sensor' ∉ pre) ∧
  _sensors_objects (run_calls (pre ++ Register "gps" 2%nat :: post) __init__)
    !! "gps"%string = Some 2%nat.
Proof.
  intros pre post.
  assert (H : ∀ sensor', Register "gps" sensor' ∉ pre).
  { intros sensor' H.
    apply elem_of_cons in H as [H|H]; [discriminate|].
    apply elem_of_cons in H as [H|H]; [discriminate|]. inversion H. }
  split; [exact H|]. exact (first_registration_kept pre post "gps" 2%nat H).
Defined.

Lemma update_sensor_commutes_witness :
  let self := run_calls [Register "rgb" tt; Register "gps" tt] __init__ in
  "rgb"%string ≠ "gps"%string ∧
  snd (update_sensor "gps" (PyVal 8%nat) 4 (snd (update_sensor "rgb" (PyVal 7%nat) 3 self)))
  = snd (update_sensor "rgb" (PyVal 7%nat) 3 (snd (update_sensor "gps" (PyVal 8%nat) 4 self))).
Proof.
  intros self.
  assert (H : "rgb"%string ≠ "gps"%string) by discriminate.
  split; [exact H|].
  exact (update_sensor_commutes self "rgb" (PyVal 7%nat) 3 "gps" (PyVal 8%nat) 4 H).
Defined.

Lemma register_sensor_unreadies_witness :
  let cs := [Register "rgb" tt; Update "rgb" (PyVal 7%nat) 3] in
  _sensors_objects (run_calls cs __init__) !! "gps"%string = None ∧
  all_sensors_ready (run_calls cs __init__) = (Ok true, run_calls cs __init__) ∧
  all_sensors_ready (snd (register_sensor "gps" tt (run_calls cs __init__)))
  = (Ok false, snd (register_sensor "gps" tt (run_calls cs __init__))).
Proof.
  intros cs.
  assert (H : _sensors_objects (run_calls cs __init__) !! "gps"%string = None)
    by (vm_compute; reflexivity).
  split; [exact H|]. split; [vm_compute; reflexivity|].
  exact (register_sensor_unreadies cs "gps" tt H).
Defined.

Lemma call_accepts_iff_witness :
  let image := {| Image.raw_data := [x01; x02; x03; xff;  x04; x05; x06; xff];
                  Image.width := 2; Image.height := 1; Image.frame_number := 9 |} in
  let self := run_calls [Register "rgb" tt]
                (@__init__ unit (CallBack.Payload unit)) in
  is_Some (_sensors_objects self !! "rgb"%string) ∧
  (fst (CallBack.__call__ "rgb" (CallBack.IsImage image) self) = Ok tt ↔
   length (Image.raw_data image) = (Image.height image * Image.width image * 4)%nat).
Proof.
  intros image self.
  assert (H : is_Some (_sensors_objects self !! "rgb"%string)).
  { vm_compute. eexists. reflexivity. }
  split; [exact H|]. exact (call_accepts_iff "rgb" (CallBack.IsImage image) self H).
Defined.

Lemma call_refusal_leaves_provider_witness :
  let image := {| Image.raw_data := [x01; x02; x03; xff;  x04; x05; x06];
                  Image.width := 2; Image.height := 1; Image.frame_number := 9 |} in
  let self := run_calls [Register "rgb" tt]
                (@__init__ unit (CallBack.Payload unit)) in
  fst (CallBack.__call__ "rgb" (CallBack.IsImage image) self)
  = Raise (ValueError "cannot reshape array") ∧
  snd (CallBack.__call__ "rgb" (CallBack.IsImage image) self) = self ∧
  ∃ msg, ValueError "cannot reshape array" = ValueError msg.
Proof.
  intros image self.
  assert (H : fst (CallBack.__call__ "rgb" (CallBack.IsImage image) self)
              = Raise (ValueError "cannot reshape array")) by reflexivity.
  split; [exact H|].
  exact (call_refusal_leaves_provider "rgb" (CallBack.IsImage image) self _ H).
Defined.

Lemma call_stores_frame_witness :
  let speed := CANBusMeasurement.Build (@PyNone nat) 9 in
  let self := run_calls [Register "can" tt]
                (@__init__ unit (CallBack.Payload nat)) in
  fst (CallBack.__call__ "can" (CallBack.IsCANBusMeasurement speed) self) = Ok tt ∧
  ∃ obj,
    _data_buffers (snd (CallBack.__call__ "can" (CallBack.IsCANBusMeasurement speed) self))
      !! "can"%string = Some obj ∧
    _timestamps (snd (CallBack.__call__ "can" (CallBack.IsCANBusMeasurement speed) self))
      !! "can"%string = Some 9 ∧
    obj = PyNone.
Proof.
  intros speed self.
  assert (H : fst (CallBack.__call__ "can" (CallBack.IsCANBusMeasurement speed) self)
              = Ok tt) by reflexivity.
  split; [exact H|].
  refine (call_stores_frame "can" (CallBack.IsCANBusMeasurement speed) self H _).
  discriminate.
Defined.

Lemma call_readiness_witness :
  let self := run_calls [Register "can" tt; Update "can" (PyVal (CallBack.DictData 5%nat)) 3]
                (@__init__ unit (CallBack.Payload nat)) in
  let speed := CANBusMeasurement.Build (@PyNone nat) 4 in
  consistent self ∧
  all_sensors_ready self = (Ok true, self) ∧
  is_Some (_sensors_objects self !! "can"%string) ∧
  all_sensors_ready (snd (CallBack.__call__ "can" (CallBack.IsCANBusMeasurement speed) self))
  = (Ok false, snd (CallBack.__call__ "can" (CallBack.IsCANBusMeasurement speed) self)).
Proof.
  intros self speed.
  assert (Hc : consistent self) by apply consistent_run_calls, consistent_init.
  assert (Hr : all_sensors_ready self = (Ok true, self)) by (vm_compute; reflexivity).
  assert (Hs : is_Some (_sensors_objects self !! "can"%string)).
  { vm_compute. eexists. reflexivity. }
  split; [exact Hc|]. split; [exact Hr|]. split; [exact Hs|].
  exact (call_readiness "can" (CallBack.IsCANBusMeasurement speed) self Hc Hr Hs).
Defined.

Lemma call_leaves_other_tags_witness :
  let self := run_calls [Register "can" tt; Register "map" tt;
                         Update "map" (PyVal (CallBack.DictData 5%nat)) 3]
                (@__init__ unit (CallBack.Payload nat)) in
  let speed := CANBusMeasurement.Build (PyVal 6%nat) 9 in
  "map"%string ≠ "can"%string ∧
  entry "map" (snd (CallBack.__call__ "can" (CallBack.IsCANBusMeasurement speed) self))
  = entry "map" self ∧
  ∀ key, is_Some (_sensors_objects
                    (snd (CallBack.__call__ "can" (CallBack.IsCANBusMeasurement speed) self))
                    !! key)
         ↔ is_Some (_sensors_objects self !! key).
Proof.
  intros self speed.
  assert (H : "map"%string ≠ "can"%string) by discriminate.
  split; [exact H|].
  exact (call_leaves_other_tags "can" "map" (CallBack.IsCANBusMeasurement speed) self H).
Defined.
End MoreExamples.

Lemma loop_returns_when_flag_cleared_witness :
  let due := {| Polling.see_run_ps := true; Polling.see_callback := true;
                Polling.see_capture := S754_finite false 4503599627370496 (-51);
                Polling.see_call := Ok 5%nat; Polling.see_listener := Ok tt;
                Polling.see_latest := S754_zero false |} in
  let stop := {| Polling.see_run_ps := false; Polling.see_callback := true;
                 Polling.see_capture := S754_finite false 4503599627370496 (-51);
                 Polling.see_call := Ok 5%nat; Polling.see_listener := Ok tt;
                 Polling.see_latest := S754_zero false |} in
  Polling.see_run_ps stop = false ∧
  Polling.emitted (Polling.loop HDMapMeasurement.Build float_one
                     ([due] ++ stop :: [due; due]) 0 (S754_zero false))
  = Polling.emitted (Polling.loop HDMapMeasurement.Build float_one [due] 0
                       (S754_zero false)) ∧
  Polling.exit (Polling.loop HDMapMeasurement.Build float_one
                  ([due] ++ stop :: [due; due]) 0 (S754_zero false))
  ≠ Polling.Looping.
Proof.
  intros due stop.
  assert (H : Polling.see_run_ps stop = false) by reflexivity.
  split; [exact H|].
  exact (loop_returns_when_flag_cleared HDMapMeasurement.Build float_one
           [due] stop [due; due] 0 (S754_zero false) H).
Defined.

Lemma loop_finished_is_final_witness :
  let due := {| Polling.see_run_ps := true; Polling.see_callback := true;
                Polling.see_capture := S754_finite false 4503599627370496 (-51);
                Polling.see_call := Ok 5%nat; Polling.see_listener := Ok tt;
                Polling.see_latest := S754_zero false |} in
  let failing := {| Polling.see_run_ps := true; Polling.see_callback := true;
                    Polling.see_capture := S754_finite false 4503599627370496 (-51);
                    Polling.see_call := Raise (KeyError "x");
                    Polling.see_listener := Ok tt;
                    Polling.see_latest := S754_zero false |} in
  Polling.exit (Polling.loop CANBusMeasurement.Build float_one [due; failing] 0
                  (S754_zero false))
  ≠ Polling.Looping ∧
  Polling.loop CANBusMeasurement.Build float_one ([due; failing] ++ [due; due]) 0
    (S754_zero false)
  = Polling.loop CANBusMeasurement.Build float_one [due; failing] 0 (S754_zero false).
Proof.
  intros due failing.
  assert (H : Polling.exit (Polling.loop CANBusMeasurement.Build float_one
                              [due; failing] 0 (S754_zero false))
              ≠ Polling.Looping) by (vm_compute; discriminate).
  split; [exact H|].
  exact (loop_finished_is_final CANBusMeasurement.Build float_one
           [due; failing] [due; due] 0 (S754_zero false) H).
Defined.

Lemma loop_without_listener_witness :
  let idle := {| Polling.see_run_ps := true; Polling.see_callback := false;
                 Polling.see_capture := S754_finite false 4503599627370496 (-51);
                 Polling.see_call := Ok 5%nat; Polling.see_listener := Ok tt;
                 Polling.see_latest := S754_zero false |} in
  Forall (λ p, Polling.see_callback p = false) [idle; idle] ∧
  Polling.emitted (Polling.loop HDMapMeasurement.Build float_one [idle; idle] 0
                     (S754_zero false)) = [] ∧
  Polling.frame_number_after (Polling.loop HDMapMeasurement.Build float_one [idle; idle] 0
                                (S754_zero false)) = 0 ∧
  ∀ e, Polling.exit (Polling.loop HDMapMeasurement.Build float_one [idle; idle] 0
                       (S754_zero false)) ≠ Polling.Died e.
Proof.
  intros idle.
  assert (H : Forall (λ p : Polling.Pass nat, Polling.see_callback p = false) [idle; idle])
    by (repeat constructor).
  split; [exact H|].
  exact (loop_without_listener HDMapMeasurement.Build float_one [idle; idle] 0
           (S754_zero false) H).
Defined.

Lemma loop_waits_for_period_witness :
  let early := {| Polling.see_run_ps := true; Polling.see_callback := true;
                  Polling.see_capture := S754_finite false 4503599627370496 (-53);
                  Polling.see_call := Ok 5%nat; Polling.see_listener := Ok tt;
                  Polling.see_latest := S754_zero false |} in
  one_over float_one = Ok float_one ∧
  Forall (λ p, float_gt (float_sub (Polling.see_capture p) (S754_zero false)) float_one
               = false) [early; early] ∧
  Polling.emitted (Polling.loop HDMapMeasurement.Build float_one [early; early] 0
                     (S754_zero false)) = [] ∧
  Polling.frame_number_after (Polling.loop HDMapMeasurement.Build float_one [early; early]
                                0 (S754_zero false)) = 0.
Proof.
  intros early.
  assert (H1 : one_over float_one = Ok float_one) by (vm_compute; reflexivity).
  assert (H2 : Forall (λ p : Polling.Pass nat,
                         float_gt (float_sub (Polling.see_capture p) (S754_zero false))
                           float_one = false) [early; early])
    by (repeat constructor).
  split; [exact H1|]. split; [exact H2|].
  exact (loop_waits_for_period HDMapMeasurement.Build float_one float_one [early; early] 0
           (S754_zero false) H1 H2).
Defined.

Lemma loop_counter_counts_emitted_witness :
  let due := {| Polling.see_run_ps := true; Polling.see_callback := true;
                Polling.see_capture := S754_finite false 4503599627370496 (-51);
                Polling.see_call := Ok 5%nat; Polling.see_listener := Ok tt;
                Polling.see_latest := S754_zero false |} in
  (∀ e, Polling.exit (Polling.loop HDMapMeasurement.Build float_one [due; due] 0
                        (S754_zero false)) ≠ Polling.Died e) ∧
  Polling.frame_number_after (Polling.loop HDMapMeasurement.Build float_one [due; due] 0
                                (S754_zero false))
  = 0 + Z.of_nat (length (Polling.emitted
                            (Polling.loop HDMapMeasurement.Build float_one [due; due] 0
                               (S754_zero false)))).
Proof.
  intros due.
  assert (H : ∀ e, Polling.exit (Polling.loop HDMapMeasurement.Build float_one [due; due] 0
                                   (S754_zero false)) ≠ Polling.Died e)
    by (intros e; vm_compute; discriminate).
  split; [exact H|].
  exact (loop_counter_counts_emitted HDMapMeasurement.Build float_one [due; due] 0
           (S754_zero false) H).
Defined.

Lemma hdmap_map_file_witness :
  let vehicle := {| carla.map_name := "/Game/Carla/Maps/Town01";
                    carla.get_transform :=
                      {| carla.location := {| carla.x := S754_zero false;
                                              carla.y := S754_zero false;
                                              carla.z := S754_zero false |};
                         carla.rotation := {| carla.pitch := S754_zero false;
                                              carla.yaw := S754_zero false;
                                              carla.roll := S754_zero false |} |};
                    carla.get_physics_control :=
                      {| carla.torque_curve := []; carla.max_rpm := S754_zero false;
                         carla.moi := S754_zero false;
                         carla.damping_rate_full_throttle := S754_zero false;
                         carla.damping_rate_zero_throttle_clutch_disengaged :=
                           S754_zero false;
                         carla.use_gear_autobox := true;
                         carla.clutch_strength := S754_zero false;
                         carla.mass := S754_zero false;
                         carla.drag_coefficient := S754_zero false;
                         carla.center_of_mass := {| carla.x := S754_zero false;
                                                    carla.y := S754_zero false;
                                                    carla.z := S754_zero false |};
                         carla.steering_curve := []; carla.wheels := [] |} |} in
  (∀ s1 s2, "Town01" ≠ s1 +:+ "/" +:+ s2) ∧
  ∃ items,
    HDMapReader.__call__ (HDMapReader._CARLA_ROOT None) vehicle = PyDict items ∧
    dict_get "map_file" items = Some (PyStr ".//HDMaps/Town01.ply").
Proof.
  intros vehicle.
  assert (H : ∀ s1 s2, "Town01" ≠ s1 +:+ "/" +:+ s2).
  { intros s1 s2 E.
    do 6 (destruct s1 as [|? s1];
          [cbv [String.append] in E; discriminate
          | cbv [String.append] in E; injection E as _ E]).
    destruct s1; cbv [String.append] in E; discriminate. }
  split; [exact H|].
  exact (hdmap_map_file (HDMapReader._CARLA_ROOT None) vehicle "/Game/Carla/Maps" "Town01"
           H (or_intror eq_refl)).
Defined.

Lemma polled_measurements_reach_get_data_witness :
  let due := {| Polling.see_run_ps := true; Polling.see_callback := true;
                Polling.see_capture := S754_finite false 4503599627370496 (-51);
                Polling.see_call := Ok (PyVal 5%nat); Polling.see_listener := Ok tt;
                Polling.see_latest := S754_zero false |} in
  let cs := [SensorInterface.Register "hdmap" tt] in
  let emitted := Polling.emitted
                   (HDMapReader.run (HDMapReader.__init__ float_one) (S754_zero false)
                      [due; due; due]) in
  is_Some (SensorInterface._sensors_objects
             (SensorInterface.run_calls cs
                (@SensorInterface.__init__ unit (CallBack.Payload nat))) !! "hdmap"%string) ∧
  last emitted = Some (HDMapMeasurement.Build (PyVal 5%nat) 2) ∧
  ∃ m,
    fst (SensorInterface.get_data
           (fold_left
              (λ s x, snd (CallBack.__call__ "hdmap" (CallBack.IsHDMapMeasurement x) s))
              emitted (SensorInterface.run_calls cs SensorInterface.__init__)))
    = Ok m ∧
    m !! "hdmap"%string
    = Some (Z.of_nat (length emitted) - 1, PyVal (CallBack.DictData 5%nat)).
Proof.
  intros due cs emitted.
  assert (H1 : is_Some (SensorInterface._sensors_objects
                          (SensorInterface.run_calls cs
                             (@SensorInterface.__init__ unit (CallBack.Payload nat)))
                          !! "hdmap"%string)).
  { vm_compute. eexists. reflexivity. }
  assert (H2 : last emitted = Some (HDMapMeasurement.Build (PyVal 5%nat) 2))
    by (vm_compute; reflexivity).
  split; [exact H1|]. split; [exact H2|].
  exact (polled_measurements_reach_get_data cs "hdmap" float_one (S754_zero false)
           [due; due; due] (HDMapMeasurement.Build (PyVal 5%nat) 2) H1 H2).
Defined.

Section PollingPeriod.
Context {Dict Measurement : Type}.
Variable make : Dict → Z → Measurement.

(** Passes that read the clock within the period emit nothing. *)
Lemma loop_within_period reading_frequency period (passes : list (Polling.Pass Dict))
    n latest_read :
  one_over reading_frequency = Ok period →
  Forall (λ p, float_gt (float_sub (Polling.see_capture p) latest_read) period = false)
    passes →
  Polling.emitted (Polling.loop make reading_frequency passes n latest_read) = [] ∧
  Polling.frame_number_after (Polling.loop make reading_frequency passes n latest_read)
  = n.
Proof.
  intros Hperiod Hall. induction Hall as [|p passes Hp _ IH]; simpl.
  - split; reflexivity.
  - destruct (Polling.see_run_ps p); simpl; [|split; reflexivity].
    destruct (Polling.see_callback p); simpl; [|exact IH].
    rewrite Hperiod, Hp. exact IH.
Qed.

(** X25. One emission a period: after a pass that emits and reads the
    clock as [latest_read], the passes that read the clock not more than
    [1 / self._reading_frequency] past that reading emit nothing; the run
    emits the one measurement and the counter goes up by one. *)
Theorem loop_one_emission_per_period reading_frequency period
    (p : Polling.Pass Dict) (waits : list (Polling.Pass Dict)) data n latest_read :
  one_over reading_frequency = Ok period →
  Polling.see_run_ps p = true →
  Polling.see_callback p = true →
  float_gt (float_sub (Polling.see_capture p) latest_read) period = true →
  Polling.see_call p = Ok data →
  Polling.see_listener p = Ok tt →
  Forall (λ q, float_gt (float_sub (Polling.see_capture q) (Polling.see_latest p)) period
               = false) waits →
  Polling.emitted (Polling.loop make reading_frequency (p :: waits) n latest_read)
  = [make data n] ∧
  Polling.frame_number_after
    (Polling.loop make reading_frequency (p :: waits) n latest_read)
  = n + 1.
Proof.
  intros Hperiod Hrun Hcb Hdue Hcall Hlistener Hwaits.
  cbn [Polling.loop]. rewrite Hrun, Hcb, Hperiod. cbn [negb].
  rewrite Hdue, Hcall, Hlistener.
  destruct (loop_within_period reading_frequency period waits (n + 1)
              (Polling.see_latest p) Hperiod Hwaits) as [He Hn].
  unfold Polling.emit. cbn [Polling.emitted Polling.frame_number_after].
  rewrite He, Hn. split; reflexivity.
Qed.
End PollingPeriod.

Lemma loop_one_emission_per_period_witness :
  let due := {| Polling.see_run_ps := true; Polling.see_callback := true;
                Polling.see_capture := S754_finite false 4503599627370496 (-51);
                Polling.see_call := Ok 5%nat; Polling.see_listener := Ok tt;
                Polling.see_latest := S754_finite false 4503599627370496 (-51) |} in
  one_over float_one = Ok float_one ∧
  Polling.see_run_ps due = true ∧
  Polling.see_callback due = true ∧
  float_gt (float_sub (Polling.see_capture due) (S754_zero false)) float_one = true ∧
  Polling.see_call due = Ok 5%nat ∧
  Polling.see_listener due = Ok tt ∧
  Forall (λ q, float_gt (float_sub (Polling.see_capture q) (Polling.see_latest due))
                 float_one = false) [due; due] ∧
  Polling.emitted (Polling.loop HDMapMeasurement.Build float_one (due :: [due; due]) 0
                     (S754_zero false))
  = [HDMapMeasurement.Build 5%nat 0] ∧
  Polling.frame_number_after
    (Polling.loop HDMapMeasurement.Build float_one (due :: [due; due]) 0 (S754_zero false))
  = 0 + 1.
Proof.
  intros due.
  assert (H1 : one_over float_one = Ok float_one) by (vm_compute; reflexivity).
  assert (H4 : float_gt (float_sub (Polling.see_capture due) (S754_zero false)) float_one
               = true) by (vm_compute; reflexivity).
  assert (H7 : Forall (λ q : Polling.Pass nat,
                         float_gt (float_sub (Polling.see_capture q)
                                     (Polling.see_latest due)) float_one = false)
                 [due; due]) by (repeat constructor).
  split; [exact H1|]. split; [reflexivity|]. split; [reflexivity|].
  split; [exact H4|]. split; [reflexivity|]. split; [reflexivity|]. split; [exact H7|].
  exact (loop_one_emission_per_period HDMapMeasurement.Build float_one float_one due
           [due; due] 5%nat 0 (S754_zero false) H1 eq_refl eq_refl H4 eq_refl eq_refl H7).
Defined.
